(** * payment-service-demo: the incident / runbook state machine

    A shallow embedding of [src/app/main.py].  The module-level
    [state = ServiceState()] object becomes a record that every operation
    takes and returns.  What the source reads from its environment is an
    explicit argument of the operation that reads it:

    - [time.time()] is a rational number of seconds ([Q]);
    - [datetime.utcnow().strftime("%H:%M:%S")] is the string it returns;
    - [random.choice(xs)] is the index it draws (reduced modulo [len(xs)]).

    [random.uniform] only feeds [time.sleep]; sleeping is where the threads
    of the program interleave, so the runbook is cut into the blocks of code
    that run between two sleeps, and a labelled transition system at the end
    of the definitions interleaves those blocks with the request handlers
    and the log generator. *)

From Stdlib Require Import ZArith QArith Qround String Ascii DecimalString Lia Lqa.
From stdpp Require Import base option list strings.

Open Scope string_scope.
Open Scope Z_scope.
Open Scope list_scope.

(** ** Python primitives *)

(** [str(n)] of an int, as the f-strings of the source render it. *)
Definition str_int (z : Z) : string := NilZero.string_of_int (Z.to_int z).

(** [str(x)] of an [Optional[str]]: [None] prints as its name. *)
Definition str_opt (o : option string) : string :=
  match o with
  | Some s => s
  | None => "None"
  end.

(** [round(x)] of a float, with no [ndigits]: to the nearest integer, a tie
    going to the even neighbour. *)
Definition py_round (x : Q) : Z :=
  let f := Qfloor x in
  match (x - inject_Z f ?= 1 # 2)%Q with
  | Lt => f
  | Gt => f + 1
  | Eq => if Z.even f then f else f + 1
  end.

(** Truth value of an [Optional[float]] and of an [Optional[str]]: [None],
    [0.0] and the empty string are false. *)
Definition truthy_float (o : option Q) : bool :=
  match o with
  | Some q => negb (Qeq_bool q 0)
  | None => false
  end.

Definition truthy_str (o : option string) : bool :=
  match o with
  | Some s => negb (String.eqb s "")
  | None => false
  end.

(** [xs[-n:]]: the last [n] elements, the whole list when it is shorter. *)
Definition last_n {A} (n : nat) (xs : list A) : list A :=
  drop (length xs - n) xs.

(** [random.choice(xs)] when the generator draws [pick]. *)
Definition random_choice {A} (d : A) (pick : nat) (xs : list A) : A :=
  nth (pick mod length xs) xs d.

(** [d.get(key, default)] on a dict literal, as an association list. *)
Fixpoint dict_get (d : list (string * string)) (key : option string)
  (default : string) : string :=
  match d with
  | [] => default
  | (k, v) :: d' =>
      match key with
      | Some k' => if String.eqb k k' then v else dict_get d' key default
      | None => default
      end
  end.

(** ** Data model *)

(** The dict built by [_add_log]. *)
Record LogEntry := {
  timestamp : string;
  level : string;
  message : string
}.

(** The dict built for each runbook step: keys ["step"], ["status"], ["ts"]
    and, once the analysis phase has set it, ["detail"]. *)
Record RunbookStep := {
  s_step : string;
  s_status : string;
  s_ts : string;
  s_detail : option string
}.

(** [class ServiceState].  [runbook_steps] holds references: the step dicts
    are mutated by the runbook after they were appended, so they live in a
    heap (see [Memory]) and the list stores their addresses. *)
Record ServiceState := {
  status : string;
  chaos_mode : option string;
  started_at : Q;
  incident_started_at : option Q;
  incident_resolved_at : option Q;
  runbook_steps : list nat;
  runbook_running : bool;
  logs : list LogEntry;
  payment_counter : Z
}.

(** The process memory: the global [state] and the step dicts allocated so
    far, a dict's address being its index. *)
Record Memory := {
  state : ServiceState;
  dicts : list RunbookStep
}.

(** Attribute assignments [self.x = v]. *)
Definition set_status (v : string) (s : ServiceState) : ServiceState :=
  {| status := v; chaos_mode := chaos_mode s; started_at := started_at s;
     incident_started_at := incident_started_at s;
     incident_resolved_at := incident_resolved_at s;
     runbook_steps := runbook_steps s; runbook_running := runbook_running s;
     logs := logs s; payment_counter := payment_counter s |}.

Definition set_chaos_mode (v : option string) (s : ServiceState) : ServiceState :=
  {| status := status s; chaos_mode := v; started_at := started_at s;
     incident_started_at := incident_started_at s;
     incident_resolved_at := incident_resolved_at s;
     runbook_steps := runbook_steps s; runbook_running := runbook_running s;
     logs := logs s; payment_counter := payment_counter s |}.

Definition set_started_at (v : Q) (s : ServiceState) : ServiceState :=
  {| status := status s; chaos_mode := chaos_mode s; started_at := v;
     incident_started_at := incident_started_at s;
     incident_resolved_at := incident_resolved_at s;
     runbook_steps := runbook_steps s; runbook_running := runbook_running s;
     logs := logs s; payment_counter := payment_counter s |}.

Definition set_incident_started_at (v : option Q) (s : ServiceState) : ServiceState :=
  {| status := status s; chaos_mode := chaos_mode s; started_at := started_at s;
     incident_started_at := v;
     incident_resolved_at := incident_resolved_at s;
     runbook_steps := runbook_steps s; runbook_running := runbook_running s;
     logs := logs s; payment_counter := payment_counter s |}.

Definition set_incident_resolved_at (v : option Q) (s : ServiceState) : ServiceState :=
  {| status := status s; chaos_mode := chaos_mode s; started_at := started_at s;
     incident_started_at := incident_started_at s;
     incident_resolved_at := v;
     runbook_steps := runbook_steps s; runbook_running := runbook_running s;
     logs := logs s; payment_counter := payment_counter s |}.

Definition set_runbook_steps (v : list nat) (s : ServiceState) : ServiceState :=
  {| status := status s; chaos_mode := chaos_mode s; started_at := started_at s;
     incident_started_at := incident_started_at s;
     incident_resolved_at := incident_resolved_at s;
     runbook_steps := v; runbook_running := runbook_running s;
     logs := logs s; payment_counter := payment_counter s |}.

Definition set_runbook_running (v : bool) (s : ServiceState) : ServiceState :=
  {| status := status s; chaos_mode := chaos_mode s; started_at := started_at s;
     incident_started_at := incident_started_at s;
     incident_resolved_at := incident_resolved_at s;
     runbook_steps := runbook_steps s; runbook_running := v;
     logs := logs s; payment_counter := payment_counter s |}.

Definition set_logs (v : list LogEntry) (s : ServiceState) : ServiceState :=
  {| status := status s; chaos_mode := chaos_mode s; started_at := started_at s;
     incident_started_at := incident_started_at s;
     incident_resolved_at := incident_resolved_at s;
     runbook_steps := runbook_steps s; runbook_running := runbook_running s;
     logs := v; payment_counter := payment_counter s |}.

Definition set_payment_counter (v : Z) (s : ServiceState) : ServiceState :=
  {| status := status s; chaos_mode := chaos_mode s; started_at := started_at s;
     incident_started_at := incident_started_at s;
     incident_resolved_at := incident_resolved_at s;
     runbook_steps := runbook_steps s; runbook_running := runbook_running s;
     logs := logs s; payment_counter := v |}.

(** ** [ServiceState] methods *)

(** [_add_log]: append, then keep the last 50 when there are more. *)
Definition _add_log (utcnow : string) (level message : string)
  (s : ServiceState) : ServiceState :=
  let entry := {| timestamp := utcnow; level := level; message := message |} in
  let appended := logs s ++ [entry] in
  if (50 <? length appended)%nat
  then set_logs (last_n 50 appended) s
  else set_logs appended s.

Definition add_log (utcnow : string) (level message : string)
  (s : ServiceState) : ServiceState :=
  _add_log utcnow level message s.

(** [reset]: [now] is the [time.time()] it reads, [t1 t2 t3] the clock
    strings of its three [_add_log] calls. *)
Definition reset (now : Q) (t1 t2 t3 : string) (s : ServiceState) : ServiceState :=
  let s := set_status "healthy" s in
  let s := set_chaos_mode None s in
  let s := set_started_at now s in
  let s := set_incident_started_at None s in
  let s := set_incident_resolved_at None s in
  let s := set_runbook_steps [] s in
  let s := set_runbook_running false s in
  let s := set_logs [] s in
  let s := set_payment_counter 0 s in
  let s := _add_log t1 "INFO" "payment-service started successfully" s in
  let s := _add_log t2 "INFO" "Connected to database pool (max: 100 connections)" s in
  _add_log t3 "INFO" "Listening on :8080" s.

(** [ServiceState()]: [__init__] only calls [reset], on an object with no
    attribute yet; the record it starts from is irrelevant ([reset] assigns
    every attribute before it reads any). *)
Definition blank : ServiceState :=
  {| status := ""; chaos_mode := None; started_at := 0%Q;
     incident_started_at := None; incident_resolved_at := None;
     runbook_steps := []; runbook_running := false; logs := [];
     payment_counter := 0 |}.

Definition init (now : Q) (t1 t2 t3 : string) : ServiceState :=
  reset now t1 t2 t3 blank.

(** ** The background log generator *)

Definition amounts : list Z :=
  [44; 88; 99; 142; 176; 210; 255; 304; 89; 133; 67; 198].

Definition msgs_connection_pool : list string :=
  [ "ERROR: Connection pool exhausted (100/100 connections in use)";
    "WARN: Retry 3/3 failed — no connections available";
    "ERROR: DB timeout after 30s — connection pool saturated";
    "ERROR: Payment rejected — cannot acquire DB connection";
    "WARN: Queue depth: 847 pending requests" ].

Definition msgs_timeout : list string :=
  [ "ERROR: Request timeout after 30000ms";
    "WARN: Downstream service not responding";
    "ERROR: Circuit breaker OPEN — payment-service";
    "ERROR: Health probe failed (3/3 retries)" ].

Definition msgs_crash : list string :=
  [ "FATAL: Unexpected panic in payment handler";
    "ERROR: nil pointer dereference at payment.go:142";
    "ERROR: Service crashed — restarting (attempt 1/3)";
    "ERROR: Restart failed — still crashing" ].

(** [state.chaos_mode == "literal"]. *)
Definition mode_is (o : option string) (lit : string) : bool :=
  match o with
  | Some m => String.eqb m lit
  | None => false
  end.

(** The catalog the [if]/[elif]/[else] chain of [log_generator] selects. *)
Definition msgs_for (chaos : option string) : list string :=
  if mode_is chaos "connection_pool" then msgs_connection_pool
  else if mode_is chaos "timeout" then msgs_timeout
  else msgs_crash.

(** One iteration of the [while True] loop of [log_generator], from the
    return of [time.sleep(12)] to the next call of it.  [pick] is what
    [random.choice] draws and [utcnow] what [_add_log] reads; neither is
    read when the status is neither healthy nor unhealthy. *)
Definition log_generator (pick : nat) (utcnow : string)
  (s : ServiceState) : ServiceState :=
  if String.eqb (status s) "healthy" then
    let amount := random_choice 0 pick amounts in
    let s := add_log utcnow "INFO"
               ("Payment processed OK — $" +:+ str_int amount +:+
                " (txn #" +:+ str_int (payment_counter s + 1000) +:+ ")") s in
    set_payment_counter (payment_counter s + 1) s
  else if String.eqb (status s) "unhealthy" then
    add_log utcnow "ERROR" (random_choice "" pick (msgs_for (chaos_mode s))) s
  else s.

(** ** Runbook automation *)

Definition RUNBOOK_STEPS : list string :=
  [ "🔍 Health check → UNHEALTHY detected";
    "📋 Fetching logs & analyzing root cause";
    "🔄 Restarting service";
    "✅ Verifying recovery";
    "📨 Notifying team — incident report sent" ].

(** The dict literal of the analysis phase and its [.get]. *)
Definition root_causes : list (string * string) :=
  [ ("connection_pool", "Connection pool exhausted (100/100)");
    ("timeout", "Downstream timeout — circuit breaker tripped");
    ("random_crash", "Nil pointer dereference in payment handler") ].

Definition root_cause_of (chaos : option string) : string :=
  dict_get root_causes chaos "Unknown error".

(** What a block of [run_runbook] reads from the clock: [time.time()], the
    clock string of its [add_log] call and the clock string of the step dict
    it creates.  A block that does not make one of the reads ignores the
    field. *)
Record Readings := {
  time_time : Q;
  utcnow_log : string;
  utcnow_step : string
}.

(** The [time.sleep] calls of [run_runbook], in program order; the restart
    phase has two. *)
Inductive SleepPoint :=
| InDetect | InAnalyse | InRestartA | InRestartB | InVerify | InNotify.

(** The local variables of a [run_runbook] call suspended in a sleep: where
    it sleeps (which fixes [i] and [step_name]) and the address of the dict
    bound to [step]. *)
Record Frame := {
  at_sleep : SleepPoint;
  step : nat
}.

(** How a block ends: in the next [time.sleep], by returning, or with the
    [TypeError] of subtracting when an operand is [None]. *)
Inductive Outcome :=
| Sleeping (fr : Frame) (m : Memory)
| Returned (m : Memory)
| Raised (m : Memory).

Definition on_state (f : ServiceState -> ServiceState) (m : Memory) : Memory :=
  {| state := f (state m); dicts := dicts m |}.

(** [step["status"] = "done"] and [step["detail"] = v], on the dict at
    address [a]. *)
Definition mark_done (d : RunbookStep) : RunbookStep :=
  {| s_step := s_step d; s_status := "done"; s_ts := s_ts d;
     s_detail := s_detail d |}.

Definition put_detail (v : string) (d : RunbookStep) : RunbookStep :=
  {| s_step := s_step d; s_status := s_status d; s_ts := s_ts d;
     s_detail := Some v |}.

Definition on_dict (f : RunbookStep -> RunbookStep) (a : nat) (m : Memory) : Memory :=
  {| state := state m; dicts := alter f a (dicts m) |}.

(** The head of the loop body for index [i]: build the step dict and append
    it to whatever list [state.runbook_steps] is bound to now. *)
Definition loop_head (i : nat) (utcnow : string) (m : Memory) : nat * Memory :=
  let a := length (dicts m) in
  let d := {| s_step := nth i RUNBOOK_STEPS ""; s_status := "running";
              s_ts := utcnow; s_detail := None |} in
  (a, {| state := set_runbook_steps (runbook_steps (state m) ++ [a]) (state m);
         dicts := dicts m ++ [d] |}).

(** [run_runbook] from its call to its first sleep. *)
Definition run_runbook_enter (r : Readings) (m : Memory) : Outcome :=
  let m := on_state (set_runbook_running true) m in
  let m := on_state (set_runbook_steps []) m in
  let m := on_state (add_log (utcnow_log r) "INFO"
                       "🤖 Runbook triggered automatically") m in
  let '(a, m) := loop_head 0 (utcnow_step r) m in
  Sleeping {| at_sleep := InDetect; step := a |} m.

(** [run_runbook] from the return of one sleep to the next one (or to its
    end). *)
Definition resume (r : Readings) (fr : Frame) (m : Memory) : Outcome :=
  match at_sleep fr with
  | InDetect =>
      let m := on_dict mark_done (step fr) m in
      let m := on_state (add_log (utcnow_log r) "INFO"
                 ("Runbook [1/5]: " +:+ nth 0 RUNBOOK_STEPS "")) m in
      let '(a, m) := loop_head 1 (utcnow_step r) m in
      Sleeping {| at_sleep := InAnalyse; step := a |} m
  | InAnalyse =>
      let root_cause := root_cause_of (chaos_mode (state m)) in
      let m := on_dict mark_done (step fr) m in
      let m := on_dict (put_detail root_cause) (step fr) m in
      let m := on_state (add_log (utcnow_log r) "INFO"
                 ("Root cause identified: " +:+ root_cause)) m in
      let '(a, m) := loop_head 2 (utcnow_step r) m in
      Sleeping {| at_sleep := InRestartA; step := a |} m
  | InRestartA =>
      let m := on_state (set_status "recovering") m in
      let m := on_state (add_log (utcnow_log r) "INFO"
                 "Restarting payment-service...") m in
      Sleeping {| at_sleep := InRestartB; step := step fr |} m
  | InRestartB =>
      let m := on_state (set_status "healthy") m in
      let m := on_state (set_incident_resolved_at (Some (time_time r))) m in
      let m := on_dict mark_done (step fr) m in
      let m := on_state (add_log (utcnow_log r) "INFO"
                 "✅ Service restarted successfully — health check PASSED") m in
      let '(a, m) := loop_head 3 (utcnow_step r) m in
      Sleeping {| at_sleep := InVerify; step := a |} m
  | InVerify =>
      let m := on_dict mark_done (step fr) m in
      let m := on_state (add_log (utcnow_log r) "INFO"
                 "Recovery verified — payment processing resumed") m in
      let '(a, m) := loop_head 4 (utcnow_step r) m in
      Sleeping {| at_sleep := InNotify; step := a |} m
  | InNotify =>
      match incident_resolved_at (state m), incident_started_at (state m) with
      | Some resolved, Some started =>
          let mttr := py_round (resolved - started) in
          let m := on_dict mark_done (step fr) m in
          let m := on_state (add_log (utcnow_log r) "INFO"
                     ("📨 Incident report: MTTR=" +:+ str_int mttr +:+
                      "s | Root cause: " +:+ str_opt (chaos_mode (state m)))) m in
          Returned (on_state (set_runbook_running false) m)
      | _, _ => Raised m
      end
  end.

(** The iterations of [log_generator] that happen while another thread
    sleeps, each given by its draw and its clock string. *)
Definition background (ticks : list (nat * string)) (m : Memory) : Memory :=
  fold_left (fun m t => on_state (log_generator (fst t) (snd t)) m) ticks m.

Definition and_then (r : Readings) (ticks : list (nat * string))
  (o : Outcome) : Outcome :=
  match o with
  | Sleeping fr m => resume r fr (background ticks m)
  | _ => o
  end.

(** A whole call of [run_runbook] during which the only other thread that
    writes is the log generator: [clk k] is what block [k] reads from the
    clock and [ticks k] are the log generator's iterations during the sleep
    that follows block [k]. *)
Definition run_runbook (clk : nat -> Readings)
  (ticks : nat -> list (nat * string)) (m : Memory) : Outcome :=
  let o := run_runbook_enter (clk 0%nat) m in
  let o := and_then (clk 1%nat) (ticks 0%nat) o in
  let o := and_then (clk 2%nat) (ticks 1%nat) o in
  let o := and_then (clk 3%nat) (ticks 2%nat) o in
  let o := and_then (clk 4%nat) (ticks 3%nat) o in
  let o := and_then (clk 5%nat) (ticks 4%nat) o in
  and_then (clk 6%nat) (ticks 5%nat) o.

(** ** Endpoints *)

(** The step dicts [state.runbook_steps] refers to. *)
Definition steps_of (m : Memory) : list RunbookStep :=
  omap (fun a => dicts m !! a) (runbook_steps (state m)).

(** [GET /health]. *)
Definition health (m : Memory) : string * Memory :=
  (status (state m), m).

(** [GET /logs]. *)
Definition get_logs (m : Memory) : list LogEntry * Memory :=
  (last_n 5 (logs (state m)), m).

Record StateResponse := {
  r_status : string;
  r_chaos_mode : option string;
  r_uptime : Z;
  r_incident_started_at : option Q;
  r_incident_resolved_at : option Q;
  r_incident_elapsed : option Z;
  r_mttr : option Z;
  r_runbook_running : bool;
  r_runbook_steps : list RunbookStep;
  r_logs : list LogEntry;
  r_root_cause : option string
}.

(** The [for s in state.runbook_steps] loop of [get_state]. *)
Definition find_root_cause (steps : list RunbookStep) : option string :=
  fold_left (fun rc s => if truthy_str (s_detail s) then s_detail s else rc)
    steps None.

(** [GET /state]; [now_elapsed] and [now_uptime] are its two possible reads
    of [time.time()]. *)
Definition get_state (now_elapsed now_uptime : Q) (m : Memory)
  : StateResponse * Memory :=
  let s := state m in
  let mttr :=
    if truthy_float (incident_resolved_at s) && truthy_float (incident_started_at s)
    then match incident_resolved_at s, incident_started_at s with
         | Some resolved, Some started => Some (py_round (resolved - started))
         | _, _ => None
         end
    else None in
  let incident_elapsed :=
    if truthy_float (incident_started_at s) && negb (truthy_float (incident_resolved_at s))
    then match incident_started_at s with
         | Some started => Some (py_round (now_elapsed - started))
         | None => None
         end
    else None in
  let root_cause := find_root_cause (steps_of m) in
  ({| r_status := status s;
      r_chaos_mode := chaos_mode s;
      r_uptime := py_round (now_uptime - started_at s);
      r_incident_started_at := incident_started_at s;
      r_incident_resolved_at := incident_resolved_at s;
      r_incident_elapsed := incident_elapsed;
      r_mttr := mttr;
      r_runbook_running := runbook_running s;
      r_runbook_steps := steps_of m;
      r_logs := last_n 5 (logs s);
      r_root_cause := root_cause |}, m).

Record ChaosRequest := {
  mode : string;
  auto_runbook_delay : Z
}.

(** The pydantic defaults of [ChaosRequest]. *)
Definition default_request : ChaosRequest :=
  {| mode := "connection_pool"; auto_runbook_delay := 8 |}.

(** The two bodies of [POST /admin/chaos]: [{"error": e}] and
    [{"ok": True, "mode": m}]. *)
Inductive ChaosResponse :=
| ChaosError (error : string)
| ChaosOk (m : string).

Definition mode_labels : list (string * string) :=
  [ ("connection_pool", "Connection pool exhausted");
    ("timeout", "Downstream timeout");
    ("random_crash", "Service panic / crash") ].

(** [POST /admin/chaos].  The third component is the [delayed_runbook]
    thread it starts, given by the delay the thread sleeps first. *)
Definition trigger_chaos (req : ChaosRequest) (now : Q) (utcnow : string)
  (s : ServiceState) : ChaosResponse * ServiceState * option Z :=
  if negb (String.eqb (status s) "healthy") then
    (ChaosError "Service is not healthy — reset first", s, None)
  else
    let s := set_status "unhealthy" s in
    let s := set_chaos_mode (Some (mode req)) s in
    let s := set_incident_started_at (Some now) s in
    let s := set_incident_resolved_at None s in
    let s := set_runbook_steps [] s in
    let s := add_log utcnow "ERROR"
               ("🚨 INCIDENT: " +:+ dict_get mode_labels (Some (mode req)) (mode req)) s in
    (ChaosOk (mode req), s, Some (auto_runbook_delay req)).

(** [delayed_runbook] from the return of its sleep: [None] when the guard
    fails and the thread ends, otherwise the thread is inside [run_runbook]. *)
Definition delayed_runbook (r : Readings) (m : Memory) : option Outcome :=
  if String.eqb (status (state m)) "unhealthy" && negb (runbook_running (state m))
  then Some (run_runbook_enter r m)
  else None.

(** [POST /admin/reset]. *)
Definition reset_endpoint (now : Q) (t1 t2 t3 : string) (m : Memory) : bool * Memory :=
  (true, on_state (reset now t1 t2 t3) m).

(** ** The running process

    The threads of the program: the server's request handlers, the log
    generator, one [delayed_runbook] thread per accepted chaos request and,
    once its guard has passed, that same thread inside [run_runbook].
    Every thread but a handler spends its time in [time.sleep]; the code
    between two sleeps, and a handler's body, is taken as one step.  A
    [delayed_runbook] thread need not ever wake ([time.sleep] raises on a
    negative delay, and the thread ends there): no step is forced. *)
Record System := {
  mem : Memory;
  delayed : nat;          (* [delayed_runbook] threads still in their sleep *)
  runbooks : list Frame   (* threads inside [run_runbook], each in a sleep *)
}.

Inductive Event :=
| GetHealth
| GetLogs
| GetState (now_elapsed now_uptime : Q)
| PostChaos (req : ChaosRequest) (now : Q) (utcnow : string)
| PostReset (now : Q) (t1 t2 t3 : string)
| LogTick (pick : nat) (utcnow : string)
| DelayOver (r : Readings)
| RunbookWake (k : nat) (r : Readings).

(** One step; [None] when the event cannot happen (no thread to wake). *)
Definition fire (e : Event) (w : System) : option System :=
  match e with
  | GetHealth =>
      Some {| mem := snd (health (mem w)); delayed := delayed w;
              runbooks := runbooks w |}
  | GetLogs =>
      Some {| mem := snd (get_logs (mem w)); delayed := delayed w;
              runbooks := runbooks w |}
  | GetState n1 n2 =>
      Some {| mem := snd (get_state n1 n2 (mem w)); delayed := delayed w;
              runbooks := runbooks w |}
  | PostChaos req now utcnow =>
      let '(_, s, thread) := trigger_chaos req now utcnow (state (mem w)) in
      Some {| mem := {| state := s; dicts := dicts (mem w) |};
              delayed := (match thread with
                          | Some _ => S (delayed w)
                          | None => delayed w
                          end);
              runbooks := runbooks w |}
  | PostReset now t1 t2 t3 =>
      Some {| mem := snd (reset_endpoint now t1 t2 t3 (mem w));
              delayed := delayed w; runbooks := runbooks w |}
  | LogTick pick utcnow =>
      Some {| mem := on_state (log_generator pick utcnow) (mem w);
              delayed := delayed w; runbooks := runbooks w |}
  | DelayOver r =>
      match delayed w with
      | O => None
      | S n =>
          match delayed_runbook r (mem w) with
          | Some (Sleeping fr m) =>
              Some {| mem := m; delayed := n; runbooks := runbooks w ++ [fr] |}
          | Some (Returned m) | Some (Raised m) =>
              Some {| mem := m; delayed := n; runbooks := runbooks w |}
          | None =>
              Some {| mem := mem w; delayed := n; runbooks := runbooks w |}
          end
      end
  | RunbookWake k r =>
      match runbooks w !! k with
      | None => None
      | Some fr =>
          match resume r fr (mem w) with
          | Sleeping fr' m =>
              Some {| mem := m; delayed := delayed w;
                      runbooks := <[k := fr']> (runbooks w) |}
          | Returned m | Raised m =>
              Some {| mem := m; delayed := delayed w;
                      runbooks := delete k (runbooks w) |}
          end
      end
  end.

(** A trace of events, each taken only when [allowed] in the state it
    meets. *)
Fixpoint run_where (allowed : System -> Event -> bool) (es : list Event)
  (w : System) : option System :=
  match es with
  | [] => Some w
  | e :: es' =>
      if allowed w e
      then match fire e w with
           | Some w' => run_where allowed es' w'
           | None => None
           end
      else None
  end.

Definition run : list Event -> System -> option System :=
  run_where (fun _ _ => true).

(** The process right after the module was imported: [state =
    ServiceState()] ran, no request was served yet. *)
Definition boot (now : Q) (t1 t2 t3 : string) : System :=
  {| mem := {| state := init now t1 t2 t3; dicts := [] |};
     delayed := 0; runbooks := [] |}.

Definition reachable (w : System) : Prop :=
  exists now t1 t2 t3 es, run es (boot now t1 t2 t3) = Some w.

Definition is_reset (e : Event) : bool :=
  match e with
  | PostReset _ _ _ _ => true
  | _ => false
  end.

(** Traces without a reset request. *)
Definition run_without_reset : list Event -> System -> option System :=
  run_where (fun _ e => negb (is_reset e)).


(** ** Notions used by the statements *)

(** A sequence of calls of [_add_log], one per entry. *)
Definition append_all (es : list LogEntry) (s : ServiceState) : ServiceState :=
  fold_left (fun s e => _add_log (timestamp e) (level e) (message e) s) es s.

(** The effect of one call of [_add_log] as a single assignment of [logs]. *)
Definition push (e : LogEntry) (s : ServiceState) : ServiceState :=
  set_logs (last_n 50 (logs s ++ [e])) s.

(** The entries [reset] writes. *)
Definition seed_logs (t1 t2 t3 : string) : list LogEntry :=
  [ {| timestamp := t1; level := "INFO";
       message := "payment-service started successfully" |};
    {| timestamp := t2; level := "INFO";
       message := "Connected to database pool (max: 100 connections)" |};
    {| timestamp := t3; level := "INFO"; message := "Listening on :8080" |} ].

(** What a client can tell of a state once clock readings are set aside:
    [started_at] and the [timestamp] of each log entry are dropped. *)
Definition observable (s : ServiceState) :=
  (status s, chaos_mode s, incident_started_at s, incident_resolved_at s,
   runbook_steps s, runbook_running s,
   map (fun e => (level e, message e)) (logs s), payment_counter s).

(** The memory a block leaves. *)
Definition memory_of (o : Outcome) : Memory :=
  match o with
  | Sleeping _ m | Returned m | Raised m => m
  end.

(** ** The progress of a runbook *)

(** The step dicts of a runbook: [running clk k i] is the dict the loop
    head builds for index [i] at the end of block [k], [finished clk k i d]
    the same dict once its phase marked it done, with [d] under ["detail"]. *)
Definition running (clk : nat -> Readings) (k i : nat) : RunbookStep :=
  {| s_step := nth i RUNBOOK_STEPS ""; s_status := "running";
     s_ts := utcnow_step (clk k); s_detail := None |}.

Definition finished (clk : nat -> Readings) (k i : nat)
  (detail : option string) : RunbookStep :=
  {| s_step := nth i RUNBOOK_STEPS ""; s_status := "done";
     s_ts := utcnow_step (clk k); s_detail := detail |}.

(** The dicts created so far when the runbook sleeps at [sp], in creation
    order, and those it leaves when it returns. *)
Definition steps_at (clk : nat -> Readings) (chaos : option string)
  (sp : SleepPoint) : list RunbookStep :=
  let d0 := finished clk 0 0 None in
  let d1 := finished clk 1 1 (Some (root_cause_of chaos)) in
  let d2 := finished clk 2 2 None in
  let d3 := finished clk 4 3 None in
  match sp with
  | InDetect => [running clk 0 0]
  | InAnalyse => [d0; running clk 1 1]
  | InRestartA | InRestartB => [d0; d1; running clk 2 2]
  | InVerify => [d0; d1; d2; running clk 4 3]
  | InNotify => [d0; d1; d2; d3; running clk 5 4]
  end.

Definition final_steps (clk : nat -> Readings) (chaos : option string)
  : list RunbookStep :=
  [ finished clk 0 0 None;
    finished clk 1 1 (Some (root_cause_of chaos));
    finished clk 2 2 None;
    finished clk 4 3 None;
    finished clk 5 4 None ].

(** The text of the incident report the last phase logs. *)
Definition report (mttr : Z) (chaos : option string) : string :=
  "📨 Incident report: MTTR=" +:+ str_int mttr +:+
  "s | Root cause: " +:+ str_opt chaos.

(** The sleep that follows the block run on waking up at [sp]. *)
Definition next_sleep (sp : SleepPoint) : SleepPoint :=
  match sp with
  | InDetect => InAnalyse
  | InAnalyse => InRestartA
  | InRestartA => InRestartB
  | InRestartB => InVerify
  | InVerify | InNotify => InNotify
  end.



(** What holds of a thread of [run_runbook] asleep at [sp], when the
    incident started at [t0] with mode [chaos] and no request interfered:
    the flag is up, the step dicts created so far are the last ones
    allocated, [state.runbook_steps] lists exactly them, [step] is the newest,
    and the status follows the restart phase. *)
Definition on_track (clk : nat -> Readings) (t0 : Q) (chaos : option string)
  (sp : SleepPoint) (fr : Frame) (m : Memory) : Prop :=
  at_sleep fr = sp /\
  runbook_running (state m) = true /\
  incident_started_at (state m) = Some t0 /\
  chaos_mode (state m) = chaos /\
  (exists pre,
     dicts m = pre ++ steps_at clk chaos sp /\
     runbook_steps (state m) = seq (length pre) (length (steps_at clk chaos sp)) /\
     step fr = (length pre + pred (length (steps_at clk chaos sp)))%nat) /\
  match sp with
  | InRestartB => status (state m) = "recovering"
  | InVerify | InNotify =>
      status (state m) = "healthy" /\
      incident_resolved_at (state m) = Some (time_time (clk 4%nat))
  | _ => True
  end.

(** What holds when such a call has returned. *)
Definition completed (clk : nat -> Readings) (t0 : Q) (chaos : option string)
  (m' : Memory) : Prop :=
  status (state m') = "healthy" /\
  chaos_mode (state m') = chaos /\
  incident_started_at (state m') = Some t0 /\
  incident_resolved_at (state m') = Some (time_time (clk 4%nat)) /\
  runbook_running (state m') = false /\
  steps_of m' = final_steps clk chaos /\
  last (logs (state m')) =
    Some {| timestamp := utcnow_log (clk 6%nat); level := "INFO";
            message := report (py_round (time_time (clk 4%nat) - t0)) chaos |}.


(** ** Traces of the process *)

(** The state a trace leads to (the state itself when the trace cannot run). *)
Definition after (es : list Event) (w : System) : System :=
  default w (run es w).

(** How many events of a trace satisfy [p]. *)
Fixpoint count (p : Event -> bool) (es : list Event) : nat :=
  match es with
  | [] => 0
  | e :: es' => (if p e then 1 else 0) + count p es'
  end.




(** The iterations of the log generator as events of the process. *)
Definition tick_events (ticks : list (nat * string)) : list Event :=
  map (fun t => LogTick (fst t) (snd t)) ticks.

(** A call of [run_runbook] seen from the process, up to the end of its
    last sleep: the delayed check that enters it, then its wake-ups, with the
    events [bg k] of the other threads during the sleep that follows block
    [k]. *)
Definition sleeps (clk : nat -> Readings) (bg : nat -> list Event) : list Event :=
  DelayOver (clk 0%nat) :: bg 0%nat ++
  RunbookWake 0 (clk 1%nat) :: bg 1%nat ++
  RunbookWake 0 (clk 2%nat) :: bg 2%nat ++
  RunbookWake 0 (clk 3%nat) :: bg 3%nat ++
  RunbookWake 0 (clk 4%nat) :: bg 4%nat ++
  RunbookWake 0 (clk 5%nat) :: bg 5%nat.






(** ** Sample states and traces *)

(** A fresh state and a burst of sixty entries. *)
Definition demo_state : ServiceState :=
  init 1700000000 "22:13:20" "22:13:20" "22:13:20".

Definition demo_entries : list LogEntry :=
  repeat {| timestamp := "22:13:21"; level := "INFO"; message := "ping" |} 60.

(** A clock: block [k] of the runbook reads second [5 + 3k] after the
    start of the process. *)
Definition demo_clock (k : nat) : Readings :=
  {| time_time := 1700000005 + inject_Z (3 * Z.of_nat k);
     utcnow_log := "22:13:25"; utcnow_step := "22:13:25" |}.

(** A fresh process. *)
Definition demo_boot : System := boot 1700000000 "22:13:20" "22:13:20" "22:13:20".

(** The process after an incident was triggered on a fresh state. *)
Definition demo_unhealthy : System :=
  after [ PostChaos {| mode := "timeout"; auto_runbook_delay := 0 |}
            1700000001 "22:13:21" ] demo_boot.

(** An incident, the delayed check, a tick of the log generator, and the
    six wake-ups of the runbook. *)
Definition demo_trace : list Event :=
  [ PostChaos {| mode := "timeout"; auto_runbook_delay := 0 |}
      1700000001 "22:13:21";
    DelayOver (demo_clock 0);
    LogTick 7 "22:13:30";
    RunbookWake 0 (demo_clock 1);
    RunbookWake 0 (demo_clock 2);
    RunbookWake 0 (demo_clock 3);
    RunbookWake 0 (demo_clock 4);
    RunbookWake 0 (demo_clock 5);
    RunbookWake 0 (demo_clock 6) ].

(** A reset served between the second and the third wake-up of the
    runbook. *)
Definition demo_reset_trace : list Event :=
  [ PostChaos {| mode := "timeout"; auto_runbook_delay := 0 |}
      1700000001 "22:13:21";
    DelayOver (demo_clock 0);
    RunbookWake 0 (demo_clock 1);
    RunbookWake 0 (demo_clock 2);
    PostReset 1700000012 "22:13:32" "22:13:32" "22:13:32";
    RunbookWake 0 (demo_clock 3) ].

(** A reset and a second incident while the runbook of the first sleeps. *)
Definition demo_double_trace : list Event :=
  [ PostChaos {| mode := "timeout"; auto_runbook_delay := 0 |}
      1700000001 "22:13:21";
    DelayOver (demo_clock 0);
    PostReset 1700000006 "22:13:26" "22:13:26" "22:13:26";
    PostChaos {| mode := "connection_pool"; auto_runbook_delay := 0 |}
      1700000007 "22:13:27";
    DelayOver (demo_clock 1) ].

(** What the other threads do during the sleeps of the runbook that
    follows: a tick and a read during the first, a chaos request (rejected)
    during the third, a tick during the last. *)
Definition demo_bg (k : nat) : list Event :=
  match k with
  | 0 => [ LogTick 7 "22:13:30"; GetState 1700000006 1700000006 ]
  | 2 => [ PostChaos {| mode := "random_crash"; auto_runbook_delay := 1 |}
             1700000012 "22:13:32" ]
  | 5 => [ LogTick 2 "22:13:42" ]
  | _ => []
  end%nat.


(** ** Notions used by the further properties *)

(** One call of [add_log] at most, with level INFO or ERROR. *)
Definition appends (s s' : ServiceState) : Prop :=
  logs s' = logs s \/
  exists e, (level e = "INFO" \/ level e = "ERROR") /\ logs s' = logs (push e s).

(** How one step of the process changes the memory: not at all, or through
    one of the five writers; [by_reset] tells whether the reset handler may be
    the writer. *)
Inductive writes (by_reset : bool) (w : System) (m' : Memory) : Prop :=
| writes_nothing : m' = mem w -> writes by_reset w m'
| writes_chaos req now utcnow :
    m' = on_state (fun s => snd (fst (trigger_chaos req now utcnow s))) (mem w) ->
    writes by_reset w m'
| writes_reset now t1 t2 t3 :
    by_reset = true ->
    m' = on_state (reset now t1 t2 t3) (mem w) -> writes by_reset w m'
| writes_tick pick utcnow :
    m' = on_state (log_generator pick utcnow) (mem w) -> writes by_reset w m'
| writes_enter r :
    status (state (mem w)) = "unhealthy" ->
    runbook_running (state (mem w)) = false ->
    m' = memory_of (run_runbook_enter r (mem w)) -> writes by_reset w m'
| writes_resume r fr :
    fr ∈ runbooks w ->
    m' = memory_of (resume r fr (mem w)) -> writes by_reset w m'.

Definition known_status (s : ServiceState) : Prop :=
  status s = "healthy" \/ status s = "unhealthy" \/ status s = "recovering".

Definition known_level (e : LogEntry) : Prop :=
  level e = "INFO" \/ level e = "ERROR".



Definition is_tick (e : Event) : bool :=
  match e with LogTick _ _ => true | _ => false end.


(** No thread is inside [run_runbook] and yet the flag is up. *)
Definition flag_stuck (w : System) : Prop :=
  runbooks w = [] /\ runbook_running (state (mem w)) = true.

(** The runbook of a first incident dies in its last block because a second
    incident was triggered after the restart phase. *)
Definition demo_death_trace : list Event :=
  [ PostChaos {| mode := "timeout"; auto_runbook_delay := 0 |}
      1700000001 "22:13:21";
    DelayOver (demo_clock 0);
    RunbookWake 0 (demo_clock 1);
    RunbookWake 0 (demo_clock 2);
    RunbookWake 0 (demo_clock 3);
    RunbookWake 0 (demo_clock 4);
    RunbookWake 0 (demo_clock 5);
    PostChaos {| mode := "random_crash"; auto_runbook_delay := 0 |}
      1700000021 "22:13:41";
    RunbookWake 0 (demo_clock 6) ].

Definition demo_after_death : list Event :=
  [ DelayOver (demo_clock 7);
    LogTick 1 "22:13:50";
    PostChaos {| mode := "timeout"; auto_runbook_delay := 0 |}
      1700000031 "22:13:51" ].

(** The entries of consecutive payments, the first tagged [c + 1000]. *)
Definition payment_entries (c : Z) (ticks : list (nat * string)) : list LogEntry :=
  imap (fun j t =>
          {| timestamp := snd t; level := "INFO";
             message := "Payment processed OK — $" +:+
                        str_int (random_choice 0 (fst t) amounts) +:+
                        " (txn #" +:+ str_int (c + 1000 + Z.of_nat j) +:+ ")" |})
       ticks.

(** [run_runbook] up to its sleep number [n] (counted from 0), the log
    generator ticking during the sleeps before. *)
Fixpoint run_blocks (n : nat) (clk : nat -> Readings)
  (ticks : nat -> list (nat * string)) (m : Memory) : Outcome :=
  match n with
  | O => run_runbook_enter (clk 0%nat) m
  | S k => and_then (clk n) (ticks k) (run_blocks k clk ticks m)
  end.

(** The sleep [run_runbook] is in after [n] wake-ups, and the number of
    phases it has begun by then. *)
Definition sleep_number (n : nat) : SleepPoint :=
  match n with
  | 0 => InDetect | 1 => InAnalyse | 2 => InRestartA
  | 3 => InRestartB | 4 => InVerify | _ => InNotify
  end%nat.

Definition phases_begun (n : nat) : nat :=
  match n with
  | 0 => 1 | 1 => 2 | 2 => 3 | 3 => 3 | 4 => 4 | _ => 5
  end%nat.



(** The entries a call of [run_runbook] writes, in order. *)
Definition trail (clk : nat -> Readings) (chaos : option string) (t0 : Q)
  : list LogEntry :=
  [ {| timestamp := utcnow_log (clk 0%nat); level := "INFO";
       message := "🤖 Runbook triggered automatically" |};
    {| timestamp := utcnow_log (clk 1%nat); level := "INFO";
       message := "Runbook [1/5]: 🔍 Health check → UNHEALTHY detected" |};
    {| timestamp := utcnow_log (clk 2%nat); level := "INFO";
       message := "Root cause identified: " +:+ root_cause_of chaos |};
    {| timestamp := utcnow_log (clk 3%nat); level := "INFO";
       message := "Restarting payment-service..." |};
    {| timestamp := utcnow_log (clk 4%nat); level := "INFO";
       message := "✅ Service restarted successfully — health check PASSED" |};
    {| timestamp := utcnow_log (clk 5%nat); level := "INFO";
       message := "Recovery verified — payment processing resumed" |};
    {| timestamp := utcnow_log (clk 6%nat); level := "INFO";
       message := report (py_round (time_time (clk 4%nat) - t0)) chaos |} ].

(** * Properties *)

(** ** The log buffer *)

Section LogBuffer.

Context {A : Type}.
Implicit Types (xs : list A) (n : nat).

Lemma last_n_all n xs : (length xs <= n)%nat -> last_n n xs = xs.
Proof.
  intros H. unfold last_n.
  replace (length xs - n)%nat with 0%nat by lia. done.
Qed.

Lemma last_n_length n xs : length (last_n n xs) = Nat.min n (length xs).
Proof. unfold last_n. rewrite length_drop. lia. Qed.

Lemma last_n_suffix n xs : exists old, xs = old ++ last_n n xs.
Proof. exists (take (length xs - n) xs). unfold last_n. by rewrite take_drop. Qed.

Lemma last_n_snoc n xs x :
  (0 < n)%nat -> last_n n (last_n n xs ++ [x]) = last_n n (xs ++ [x]).
Proof.
  intros Hn. unfold last_n. rewrite !length_app, length_drop. simpl.
  destruct (decide (length xs <= n)%nat) as [Hle|Hgt].
  - replace (length xs - n)%nat with 0%nat by lia. simpl.
    by replace (length xs - 0)%nat with (length xs) by lia.
  - replace (length xs - (length xs - n) + 1 - n)%nat with 1%nat by lia.
    replace (length xs + 1 - n)%nat with (S (length xs - n)) by lia.
    rewrite (drop_app_le xs [x] (S (length xs - n))) by lia.
    rewrite drop_app_le by (rewrite length_drop; lia).
    by rewrite drop_drop, Nat.add_1_r.
Qed.

End LogBuffer.

Lemma _add_log_push t l msg s :
  _add_log t l msg s = push {| timestamp := t; level := l; message := msg |} s.
Proof.
  unfold _add_log, push.
  destruct (50 <? length _)%nat eqn:E; simpl; [done|].
  apply Nat.ltb_ge in E. by rewrite last_n_all.
Qed.

Lemma append_all_logs es : forall s,
  logs (append_all es s) =
  match es with [] => logs s | _ => last_n 50 (logs s ++ es) end.
Proof.
  induction es as [|e es IH] using rev_ind; intros s; [done|].
  unfold append_all in *. rewrite fold_left_app. simpl.
  rewrite _add_log_push. unfold push at 1. simpl. rewrite IH.
  destruct e as [t l m]; simpl.
  destruct es as [|e' es']; simpl.
  - done.
  - rewrite last_n_snoc by lia. by rewrite <- app_assoc.
Qed.

(** C4. Whatever sequence of entries is appended through [_add_log] to a
    buffer within capacity, the buffer then holds at most 50 entries, namely
    the last 50 (or all, when fewer) of the old entries followed by the new
    ones, in that order; what is dropped is a prefix, so the oldest entries
    go first.  The sequence is arbitrary, so this holds after each append. *)
Theorem log_buffer_bounded_fifo (s : ServiceState) (es : list LogEntry) :
  (length (logs s) <= 50)%nat ->
  let s' := append_all es s in
  (length (logs s') <= 50)%nat /\
  logs s' = last_n 50 (logs s ++ es) /\
  length (logs s') = Nat.min 50 (length (logs s ++ es)) /\
  exists evicted, logs s ++ es = evicted ++ logs s'.
Proof.
  intros Hcap s'.
  assert (Hlogs : logs s' = last_n 50 (logs s ++ es)).
  { subst s'. rewrite append_all_logs. destruct es as [|e es]; [|done].
    rewrite app_nil_r. by rewrite last_n_all. }
  rewrite Hlogs, last_n_length. repeat split; [lia|].
  apply last_n_suffix.
Qed.

Lemma log_buffer_bounded_fifo_witness :
  (length (logs demo_state) <= 50)%nat /\
  let s' := append_all demo_entries demo_state in
  (length (logs s') <= 50)%nat /\
  logs s' = last_n 50 (logs demo_state ++ demo_entries) /\
  length (logs s') = Nat.min 50 (length (logs demo_state ++ demo_entries)) /\
  exists evicted, logs demo_state ++ demo_entries = evicted ++ logs s'.
Proof.
  split.
  - vm_compute. lia.
  - apply (log_buffer_bounded_fifo demo_state demo_entries). vm_compute. lia.
Defined.

(** ** Reset *)

Lemma reset_value now t1 t2 t3 s :
  reset now t1 t2 t3 s =
  {| status := "healthy"; chaos_mode := None; started_at := now;
     incident_started_at := None; incident_resolved_at := None;
     runbook_steps := []; runbook_running := false;
     logs := seed_logs t1 t2 t3; payment_counter := 0 |}.
Proof. reflexivity. Qed.

(** C7. [reset] succeeds on every state and leaves the startup defaults:
    healthy, no chaos mode, no incident timestamps, no runbook steps, no
    runbook running, counter zero and exactly the three seed INFO entries;
    the result is the state a fresh process starts with, a full-state read of
    it shows status healthy, 3 logs, [runbook_running] false and no steps;
    and a second reset changes nothing a client can tell apart from clock
    readings. *)
Theorem reset_reinitialises (now : Q) (t1 t2 t3 : string) (m : Memory) :
  let '(ok, m') := reset_endpoint now t1 t2 t3 m in
  let s' := state m' in
  ok = true /\
  (status s' = "healthy" /\ chaos_mode s' = None /\ started_at s' = now /\
   incident_started_at s' = None /\ incident_resolved_at s' = None /\
   runbook_steps s' = [] /\ runbook_running s' = false /\
   payment_counter s' = 0 /\ logs s' = seed_logs t1 t2 t3) /\
  s' = init now t1 t2 t3 /\
  (forall n1 n2,
     let r := fst (get_state n1 n2 m') in
     r_status r = "healthy" /\ length (r_logs r) = 3%nat /\
     Forall (fun e => level e = "INFO") (r_logs r) /\
     r_runbook_running r = false /\ r_runbook_steps r = []) /\
  (forall now' t1' t2' t3',
     observable (state (snd (reset_endpoint now' t1' t2' t3' m'))) =
     observable s').
Proof.
  destruct m as [s d]. unfold reset_endpoint, on_state. cbv [state dicts].
  rewrite reset_value. cbv [state].
  split; [reflexivity|]. split; [repeat split|]. split; [reflexivity|].
  split.
  - intros n1 n2. repeat split. repeat constructor.
  - intros. reflexivity.
Qed.

(** ** The incident trigger *)

Lemma trigger_chaos_rejected req now utcnow s :
  status s <> "healthy" ->
  trigger_chaos req now utcnow s =
  (ChaosError "Service is not healthy — reset first", s, None).
Proof.
  intros H. unfold trigger_chaos.
  destruct (String.eqb_spec (status s) "healthy"); [done|reflexivity].
Qed.

Lemma trigger_chaos_accepted req now utcnow s :
  status s = "healthy" ->
  trigger_chaos req now utcnow s =
  (ChaosOk (mode req),
   {| status := "unhealthy"; chaos_mode := Some (mode req);
      started_at := started_at s;
      incident_started_at := Some now; incident_resolved_at := None;
      runbook_steps := []; runbook_running := runbook_running s;
      logs := last_n 50 (logs s ++
                [{| timestamp := utcnow; level := "ERROR";
                    message := "🚨 INCIDENT: " +:+
                      dict_get mode_labels (Some (mode req)) (mode req) |}]);
      payment_counter := payment_counter s |},
   Some (auto_runbook_delay req)).
Proof.
  intros H. unfold trigger_chaos. rewrite H. simpl negb. cbv iota.
  unfold add_log. rewrite _add_log_push. reflexivity.
Qed.


(** ** The log generator *)

Lemma random_choice_elem {A} (d : A) (pick : nat) (xs : list A) :
  xs <> [] -> random_choice d pick xs ∈ xs.
Proof.
  intros Hne. unfold random_choice. apply list_elem_of_In, nth_In.
  apply Nat.mod_upper_bound. destruct xs; [done|simpl; lia].
Qed.

Lemma msgs_for_nonempty chaos : msgs_for chaos <> [].
Proof.
  unfold msgs_for.
  destruct (mode_is chaos "connection_pool"); [done|].
  destruct (mode_is chaos "timeout"); done.
Qed.

Lemma msgs_for_other (m : string) :
  m <> "connection_pool" -> m <> "timeout" -> msgs_for (Some m) = msgs_crash.
Proof.
  intros H1 H2. unfold msgs_for, mode_is.
  destruct (String.eqb_spec m "connection_pool"); [done|].
  destruct (String.eqb_spec m "timeout"); done.
Qed.

Lemma log_generator_healthy pick utcnow s :
  status s = "healthy" ->
  log_generator pick utcnow s =
  set_payment_counter (payment_counter s + 1)
    (push {| timestamp := utcnow; level := "INFO";
             message := "Payment processed OK — $" +:+
                        str_int (random_choice 0 pick amounts) +:+
                        " (txn #" +:+ str_int (payment_counter s + 1000) +:+ ")" |} s).
Proof.
  intros H. unfold log_generator, add_log. rewrite H. cbv iota beta.
  change (String.eqb "healthy" "healthy") with true. cbv iota.
  by rewrite _add_log_push.
Qed.

Lemma log_generator_unhealthy pick utcnow s :
  status s = "unhealthy" ->
  log_generator pick utcnow s =
  push {| timestamp := utcnow; level := "ERROR";
          message := random_choice "" pick (msgs_for (chaos_mode s)) |} s.
Proof.
  intros H. unfold log_generator, add_log. rewrite H.
  change (String.eqb "unhealthy" "healthy") with false.
  change (String.eqb "unhealthy" "unhealthy") with true. cbv iota.
  by rewrite _add_log_push.
Qed.

Lemma log_generator_idle pick utcnow s :
  status s <> "healthy" -> status s <> "unhealthy" ->
  log_generator pick utcnow s = s.
Proof.
  intros H1 H2. unfold log_generator.
  destruct (String.eqb_spec (status s) "healthy"); [done|].
  destruct (String.eqb_spec (status s) "unhealthy"); done.
Qed.

(** C5. One firing of the log generator.  Healthy: one INFO entry is
    appended, for an amount of the candidate list and tagged with the counter
    plus 1000, and the counter goes up by one.  Unhealthy: one ERROR entry is
    appended, its text taken from the catalog of the chaos mode (the pool
    catalog for [connection_pool], the timeout catalog for [timeout], the
    crash catalog otherwise).  Recovering: the state is left as it is.  In
    the first two cases nothing but [logs] (and the counter) changes. *)
Theorem log_generator_spec (pick : nat) (utcnow : string) (s : ServiceState) :
  let s' := log_generator pick utcnow s in
  (status s = "healthy" ->
     exists amount, amount ∈ amounts /\
       s' = set_payment_counter (payment_counter s + 1)
              (push {| timestamp := utcnow; level := "INFO";
                       message := "Payment processed OK — $" +:+ str_int amount +:+
                                  " (txn #" +:+ str_int (payment_counter s + 1000) +:+ ")" |}
                    s)) /\
  (status s = "unhealthy" ->
     exists msg, msg ∈ msgs_for (chaos_mode s) /\
       s' = push {| timestamp := utcnow; level := "ERROR"; message := msg |} s) /\
  (status s = "recovering" -> s' = s) /\
  (msgs_for (Some "connection_pool") = msgs_connection_pool /\
   msgs_for (Some "timeout") = msgs_timeout /\
   msgs_for (Some "random_crash") = msgs_crash) /\
  (forall e t, exists evicted,
     logs t ++ [e] = evicted ++ logs (push e t) /\
     ((length (logs t) < 50)%nat -> evicted = [])).
Proof.
  intros s'. subst s'. repeat split.
  - intros H. exists (random_choice 0 pick amounts). split.
    + by apply random_choice_elem.
    + by apply log_generator_healthy.
  - intros H. exists (random_choice "" pick (msgs_for (chaos_mode s))). split.
    + apply random_choice_elem, msgs_for_nonempty.
    + by apply log_generator_unhealthy.
  - intros H. apply log_generator_idle; rewrite H; done.
  - intros e t. exists (take (length (logs t ++ [e]) - 50) (logs t ++ [e])).
    split.
    + unfold push, last_n. cbv [logs set_logs]. by rewrite take_drop.
    + intros Hlen. rewrite length_app. simpl.
      by replace (length (logs t) + 1 - 50)%nat with 0%nat by lia.
Qed.

(** ** Reads *)

(** C9. The three read endpoints hand back the memory they were given, so
    no attribute of the state changes, also as steps of the running process;
    and the logs read returns the final segment of the buffer, in buffer
    order, of length 5 (or the whole buffer when it is shorter). *)
Theorem reads_leave_state (n1 n2 : Q) (m : Memory) (w : System) :
  snd (health m) = m /\
  snd (get_logs m) = m /\
  snd (get_state n1 n2 m) = m /\
  (fire GetHealth w = Some w /\ fire GetLogs w = Some w /\
   fire (GetState n1 n2) w = Some w) /\
  (exists older, logs (state m) = older ++ fst (get_logs m)) /\
  length (fst (get_logs m)) = Nat.min 5 (length (logs (state m))) /\
  r_logs (fst (get_state n1 n2 m)) = fst (get_logs m).
Proof.
  repeat split; try reflexivity.
  - by destruct w.
  - by destruct w.
  - by destruct w.
  - apply last_n_suffix.
  - apply last_n_length.
Qed.

(** ** The runbook

    A call of [run_runbook] is followed block by block: [on_track] holds
    when it goes to sleep, survives the log generator, and takes each block to
    the next sleep point. *)

Lemma log_generator_frame pick t s :
  exists l c, log_generator pick t s = set_payment_counter c (set_logs l s).
Proof.
  unfold log_generator, add_log.
  destruct (String.eqb (status s) "healthy").
  - rewrite _add_log_push. eexists _, _. reflexivity.
  - destruct (String.eqb (status s) "unhealthy").
    + rewrite _add_log_push.
      exists (last_n 50 (logs s ++
                [{| timestamp := t; level := "ERROR";
                    message := random_choice "" pick (msgs_for (chaos_mode s)) |}])),
        (payment_counter s).
      by destruct s.
    + exists (logs s), (payment_counter s). by destruct s.
Qed.

Lemma background_frame ticks : forall m,
  exists l c, background ticks m =
    {| state := set_payment_counter c (set_logs l (state m)); dicts := dicts m |}.
Proof.
  induction ticks as [|[pick t] ticks IH]; intros m.
  - exists (logs (state m)), (payment_counter (state m)). by destruct m as [[] ?].
  - simpl. destruct (IH (on_state (log_generator pick t) m)) as (l & c & ->).
    destruct (log_generator_frame pick t (state m)) as (l' & c' & E).
    exists l, c. unfold on_state. simpl. rewrite E. reflexivity.
Qed.

Lemma on_track_background clk t0 chaos sp fr ticks m :
  on_track clk t0 chaos sp fr m -> on_track clk t0 chaos sp fr (background ticks m).
Proof.
  destruct (background_frame ticks m) as (l & c & ->).
  unfold on_track. simpl. done.
Qed.

Ltac open_memory m :=
  destruct m as [[st ch sa isa ira rs rr lg pc] d];
  cbv [state dicts status chaos_mode started_at incident_started_at
       incident_resolved_at runbook_steps runbook_running logs payment_counter] in *.

Ltac run_block :=
  unfold on_state, on_dict, loop_head, add_log;
  cbv [state dicts]; rewrite ?_add_log_push;
  cbv [push set_logs set_status set_runbook_steps set_runbook_running
       set_incident_resolved_at
       state dicts status chaos_mode started_at incident_started_at
       incident_resolved_at runbook_steps runbook_running logs payment_counter
       at_sleep step].

Lemma enter_on_track clk t0 m :
  incident_started_at (state m) = Some t0 ->
  exists fr m', run_runbook_enter (clk 0%nat) m = Sleeping fr m' /\
    on_track clk t0 (chaos_mode (state m)) InDetect fr m'.
Proof.
  intros H. open_memory m. unfold run_runbook_enter. run_block.
  eexists _, _. split; [reflexivity|].
  unfold on_track. run_block. repeat split; try done.
  exists d. repeat split. simpl. lia.
Qed.

Ltac close_track pre :=
  unfold on_track; run_block;
  repeat split; try done;
  exists pre; simpl;
  rewrite ?alter_app_r; simpl; rewrite ?length_app; simpl;
  rewrite <- ?app_assoc; simpl;
  repeat split; try reflexivity; try (repeat f_equal; lia).

Ltac open_track H pre :=
  let Hat := fresh "Hat" in let Hrun := fresh "Hrun" in
  let Hst := fresh "Hst" in let Hch := fresh "Hch" in
  let Hd := fresh "Hd" in let Hrs := fresh "Hrs" in
  let Hstep := fresh "Hstep" in let Hsp := fresh "Hsp" in
  destruct H as (Hat & Hrun & Hst & Hch & (pre & Hd & Hrs & Hstep) & Hsp).

Lemma resume_detect clk t0 chaos fr m :
  on_track clk t0 chaos InDetect fr m ->
  exists fr' m', resume (clk 1%nat) fr m = Sleeping fr' m' /\
    on_track clk t0 chaos InAnalyse fr' m'.
Proof.
  intros H. open_track H pre.
  destruct fr as [sp a]. open_memory m. cbv [at_sleep step] in *. subst.
  unfold resume. run_block.
  eexists _, _. split; [reflexivity|]. close_track pre.
Qed.

Lemma resume_analyse clk t0 chaos fr m :
  on_track clk t0 chaos InAnalyse fr m ->
  exists fr' m', resume (clk 2%nat) fr m = Sleeping fr' m' /\
    on_track clk t0 chaos InRestartA fr' m'.
Proof.
  intros H. open_track H pre.
  destruct fr as [sp a]. open_memory m. cbv [at_sleep step] in *. subst.
  unfold resume. run_block.
  eexists _, _. split; [reflexivity|]. close_track pre.
Qed.

Lemma resume_restart_a clk t0 chaos fr m :
  on_track clk t0 chaos InRestartA fr m ->
  exists fr' m', resume (clk 3%nat) fr m = Sleeping fr' m' /\
    on_track clk t0 chaos InRestartB fr' m'.
Proof.
  intros H. open_track H pre.
  destruct fr as [sp a]. open_memory m. cbv [at_sleep step] in *. subst.
  unfold resume. run_block.
  eexists _, _. split; [reflexivity|]. close_track pre.
Qed.

Lemma resume_restart_b clk t0 chaos fr m :
  on_track clk t0 chaos InRestartB fr m ->
  exists fr' m', resume (clk 4%nat) fr m = Sleeping fr' m' /\
    on_track clk t0 chaos InVerify fr' m'.
Proof.
  intros H. open_track H pre.
  destruct fr as [sp a]. open_memory m. cbv [at_sleep step] in *. subst.
  unfold resume. run_block.
  eexists _, _. split; [reflexivity|]. close_track pre.
Qed.

Lemma resume_verify clk t0 chaos fr m :
  on_track clk t0 chaos InVerify fr m ->
  exists fr' m', resume (clk 5%nat) fr m = Sleeping fr' m' /\
    on_track clk t0 chaos InNotify fr' m'.
Proof.
  intros H. open_track H pre.
  destruct fr as [sp a]. open_memory m. cbv [at_sleep step] in *.
  destruct Hsp as [? ?]. subst.
  unfold resume. run_block.
  eexists _, _. split; [reflexivity|]. close_track pre.
Qed.

Lemma last_last_n_snoc {A} (n : nat) (xs : list A) (x : A) :
  (0 < n)%nat -> last (last_n n (xs ++ [x])) = Some x.
Proof.
  intros Hn. unfold last_n. rewrite length_app. simpl.
  rewrite drop_app_le by lia. apply last_snoc.
Qed.

Lemma lookup_seq_suffix {A} (xs : list A) : forall pre,
  omap (fun a => (pre ++ xs) !! a) (seq (length pre) (length xs)) = xs.
Proof.
  induction xs as [|x xs IH]; intros pre; [done|].
  simpl. rewrite list_lookup_middle by done. simpl. f_equal.
  specialize (IH (pre ++ [x])). rewrite length_app, <- app_assoc in IH.
  simpl in IH. by rewrite Nat.add_1_r in IH.
Qed.

Lemma resume_notify clk t0 chaos fr m :
  on_track clk t0 chaos InNotify fr m ->
  exists m', resume (clk 6%nat) fr m = Returned m' /\ completed clk t0 chaos m'.
Proof.
  intros H. open_track H pre.
  destruct fr as [sp a]. open_memory m. cbv [at_sleep step] in *.
  destruct Hsp as [? ?]. subst.
  unfold resume. run_block.
  eexists. split; [reflexivity|].
  unfold completed, steps_of. run_block.
  do 5 (split; [reflexivity|]). split.
  - change (pred (length (steps_at clk chaos InNotify))) with 4%nat.
    rewrite alter_app_r.
    exact (lookup_seq_suffix (final_steps clk chaos) pre).
  - unfold report. apply last_last_n_snoc. lia.
Qed.

Lemma run_runbook_completes clk ticks t0 m :
  incident_started_at (state m) = Some t0 ->
  exists m', run_runbook clk ticks m = Returned m' /\
    completed clk t0 (chaos_mode (state m)) m'.
Proof.
  intros H. unfold run_runbook.
  destruct (enter_on_track clk t0 m H) as (f0 & m0 & -> & T0).
  cbv zeta. unfold and_then at 6.
  destruct (resume_detect _ _ _ _ _ (on_track_background _ _ _ _ _ (ticks 0%nat) _ T0))
    as (f1 & m1 & -> & T1).
  unfold and_then at 5.
  destruct (resume_analyse _ _ _ _ _ (on_track_background _ _ _ _ _ (ticks 1%nat) _ T1))
    as (f2 & m2 & -> & T2).
  unfold and_then at 4.
  destruct (resume_restart_a _ _ _ _ _ (on_track_background _ _ _ _ _ (ticks 2%nat) _ T2))
    as (f3 & m3 & -> & T3).
  unfold and_then at 3.
  destruct (resume_restart_b _ _ _ _ _ (on_track_background _ _ _ _ _ (ticks 3%nat) _ T3))
    as (f4 & m4 & -> & T4).
  unfold and_then at 2.
  destruct (resume_verify _ _ _ _ _ (on_track_background _ _ _ _ _ (ticks 4%nat) _ T4))
    as (f5 & m5 & -> & T5).
  unfold and_then.
  exact (resume_notify _ _ _ _ _ (on_track_background _ _ _ _ _ (ticks 5%nat) _ T5)).
Qed.


(** ** Root cause *)

Lemma root_cause_of_other (m : string) :
  m <> "connection_pool" -> m <> "timeout" -> m <> "random_crash" ->
  root_cause_of (Some m) = "Unknown error".
Proof.
  intros H1 H2 H3. unfold root_cause_of, root_causes, dict_get.
  destruct (String.eqb_spec "connection_pool" m); [congruence|].
  destruct (String.eqb_spec "timeout" m); [congruence|].
  destruct (String.eqb_spec "random_crash" m); [congruence|done].
Qed.

Lemma root_cause_of_truthy chaos :
  truthy_str (Some (root_cause_of chaos)) = true.
Proof.
  destruct chaos as [m|]; [|reflexivity].
  unfold root_cause_of, root_causes, dict_get.
  destruct (String.eqb "connection_pool" m); [reflexivity|].
  destruct (String.eqb "timeout" m); [reflexivity|].
  destruct (String.eqb "random_crash" m); reflexivity.
Qed.

Lemma find_root_cause_final clk chaos :
  find_root_cause (final_steps clk chaos) = Some (root_cause_of chaos).
Proof.
  unfold find_root_cause, final_steps, finished. cbv [fold_left s_detail].
  change (truthy_str None) with false. cbv iota.
  by rewrite root_cause_of_truthy.
Qed.

Lemma completed_root_cause clk t0 chaos n1 n2 m' :
  completed clk t0 chaos m' ->
  steps_of m' !! 1%nat = Some (finished clk 1 1 (Some (root_cause_of chaos))) /\
  r_root_cause (fst (get_state n1 n2 m')) = Some (root_cause_of chaos) /\
  r_status (fst (get_state n1 n2 m')) = "healthy".
Proof.
  intros (Hst & Hch & Hs & Hr & Hrr & Hsteps & Hlast).
  unfold get_state. cbv [fst r_root_cause r_status].
  rewrite Hsteps, Hst, find_root_cause_final. done.
Qed.

Lemma resume_analyse_detail r fr m x :
  at_sleep fr = InAnalyse ->
  dicts m !! step fr = Some x ->
  exists fr' m',
    resume r fr m = Sleeping fr' m' /\
    dicts m' !! step fr =
      Some (put_detail (root_cause_of (chaos_mode (state m))) (mark_done x)).
Proof.
  intros Hat Hd. destruct fr as [sp a]. open_memory m.
  cbv [at_sleep step] in *. subst. unfold resume. run_block.
  eexists _, _. split; [reflexivity|]. cbv [dicts].
  rewrite lookup_app_l.
  - rewrite !list_lookup_alter_eq. by rewrite Hd.
  - rewrite !length_alter. by eapply lookup_lt_Some.
Qed.

(** C6. The analysis phase looks the chaos mode up in a fixed table (the
    three known modes have their own text, anything else, also no mode at
    all, gives ["Unknown error"]) and stores the text under ["detail"] of
    that phase's step dict; after a run of the runbook the full-state read
    reports it as [root_cause], with status healthy; in particular so after
    a trigger with mode ["timeout"] on a fresh state, where the text is
    ["Downstream timeout — circuit breaker tripped"]. *)
Theorem root_cause_reported :
  (root_cause_of (Some "connection_pool") = "Connection pool exhausted (100/100)" /\
   root_cause_of (Some "timeout") = "Downstream timeout — circuit breaker tripped" /\
   root_cause_of (Some "random_crash") = "Nil pointer dereference in payment handler" /\
   root_cause_of None = "Unknown error" /\
   (forall m : string,
      m <> "connection_pool" -> m <> "timeout" -> m <> "random_crash" ->
      root_cause_of (Some m) = "Unknown error")) /\
  (forall r fr m d,
     at_sleep fr = InAnalyse -> dicts m !! step fr = Some d ->
     exists fr' m',
       resume r fr m = Sleeping fr' m' /\
       dicts m' !! step fr =
         Some {| s_step := s_step d; s_status := "done"; s_ts := s_ts d;
                 s_detail := Some (root_cause_of (chaos_mode (state m))) |}) /\
  (forall clk ticks m t0 n1 n2,
     incident_started_at (state m) = Some t0 ->
     exists m',
       run_runbook clk ticks m = Returned m' /\
       steps_of m' !! 1%nat =
         Some (finished clk 1 1 (Some (root_cause_of (chaos_mode (state m))))) /\
       r_root_cause (fst (get_state n1 n2 m')) =
         Some (root_cause_of (chaos_mode (state m))) /\
       r_status (fst (get_state n1 n2 m')) = "healthy") /\
  (forall now t1 t2 t3 delay now' utcnow clk ticks n1 n2,
     let req := {| mode := "timeout"; auto_runbook_delay := delay |} in
     let '(resp, s1, _) := trigger_chaos req now' utcnow (init now t1 t2 t3) in
     resp = ChaosOk "timeout" /\
     exists m',
       run_runbook clk ticks {| state := s1; dicts := [] |} = Returned m' /\
       r_root_cause (fst (get_state n1 n2 m')) =
         Some "Downstream timeout — circuit breaker tripped" /\
       r_status (fst (get_state n1 n2 m')) = "healthy").
Proof.
  split; [|split; [|split]].
  - repeat split. apply root_cause_of_other.
  - intros r fr m d Hat Hd. exact (resume_analyse_detail r fr m d Hat Hd).
  - intros clk ticks m t0 n1 n2 Hstart.
    destruct (run_runbook_completes clk ticks t0 m Hstart) as (m' & Hrun & Hdone).
    exists m'. split; [done|]. by apply (completed_root_cause clk t0).
  - intros now t1 t2 t3 delay now' utcnow clk ticks n1 n2 req.
    rewrite trigger_chaos_accepted by reflexivity. split; [reflexivity|].
    match goal with |- context [run_runbook clk ticks ?m] =>
      destruct (run_runbook_completes clk ticks now' m eq_refl)
        as (m' & Hrun & Hdone)
    end.
    exists m'. split; [done|].
    destruct (completed_root_cause clk now' _ n1 n2 m' Hdone) as (_ & Hrc & Hst).
    split; [exact Hrc|exact Hst].
Qed.

(** C10. A mode outside the three listed ones is accepted like any other
    on a healthy state: the answer is [{ok: true, mode}], the status becomes
    unhealthy with that very string as chaos mode, the incident entry ends
    with the string itself, every firing of the log generator then draws from
    the crash catalog, and the analysis phase of a runbook run on that state
    records ["Unknown error"], which the full-state read reports. *)
Theorem unrecognised_mode_accepted (req : ChaosRequest) (now : Q)
  (utcnow : string) (s : ServiceState) :
  mode req <> "connection_pool" -> mode req <> "timeout" ->
  mode req <> "random_crash" ->
  status s = "healthy" ->
  let '(resp, s', _) := trigger_chaos req now utcnow s in
  resp = ChaosOk (mode req) /\
  status s' = "unhealthy" /\
  chaos_mode s' = Some (mode req) /\
  last (logs s') =
    Some {| timestamp := utcnow; level := "ERROR";
            message := "🚨 INCIDENT: " +:+ mode req |} /\
  (forall pick t,
     exists msg, msg ∈ msgs_crash /\
       log_generator pick t s' =
       push {| timestamp := t; level := "ERROR"; message := msg |} s') /\
  (forall clk ticks d n1 n2,
     exists m',
       run_runbook clk ticks {| state := s'; dicts := d |} = Returned m' /\
       steps_of m' !! 1%nat = Some (finished clk 1 1 (Some "Unknown error")) /\
       r_root_cause (fst (get_state n1 n2 m')) = Some "Unknown error").
Proof.
  intros H1 H2 H3 Hh. rewrite trigger_chaos_accepted by done.
  assert (Hlabel : dict_get mode_labels (Some (mode req)) (mode req) = mode req).
  { unfold mode_labels, dict_get.
    destruct (String.eqb_spec "connection_pool" (mode req)); [congruence|].
    destruct (String.eqb_spec "timeout" (mode req)); [congruence|].
    destruct (String.eqb_spec "random_crash" (mode req)); [congruence|done]. }
  rewrite Hlabel.
  cbv beta iota.
  match goal with |- _ /\ status ?s1 = _ /\ _ => set (s' := s1) end.
  split; [reflexivity|]. split; [reflexivity|]. split; [reflexivity|].
  split; [|split].
  - subst s'. cbv [logs]. apply last_last_n_snoc. lia.
  - intros pick t.
    exists (random_choice "" pick (msgs_for (chaos_mode s'))).
    rewrite <- (msgs_for_other (mode req)) by done. split.
    + apply random_choice_elem, msgs_for_nonempty.
    + by apply log_generator_unhealthy.
  - intros clk ticks d n1 n2.
    destruct (run_runbook_completes clk ticks now {| state := s'; dicts := d |} eq_refl)
      as (m' & Hrun & Hdone).
    exists m'. split; [done|].
    destruct (completed_root_cause clk now _ n1 n2 m' Hdone) as (Hd & Hrc & _).
    cbv [state chaos_mode s'] in Hd, Hrc.
    rewrite root_cause_of_other in Hd, Hrc by done.
    split; [exact Hd|exact Hrc].
Qed.

Lemma unrecognised_mode_accepted_witness :
  let '(resp, s', _) :=
    trigger_chaos {| mode := "disk_full"; auto_runbook_delay := 3 |}
      1700000001 "22:13:21" demo_state in
  resp = ChaosOk "disk_full" /\
  status s' = "unhealthy" /\
  chaos_mode s' = Some "disk_full" /\
  last (logs s') =
    Some {| timestamp := "22:13:21"; level := "ERROR";
            message := "🚨 INCIDENT: " +:+ "disk_full" |} /\
  (forall pick t,
     exists msg, msg ∈ msgs_crash /\
       log_generator pick t s' =
       push {| timestamp := t; level := "ERROR"; message := msg |} s') /\
  (forall clk ticks d n1 n2,
     exists m',
       run_runbook clk ticks {| state := s'; dicts := d |} = Returned m' /\
       steps_of m' !! 1%nat = Some (finished clk 1 1 (Some "Unknown error")) /\
       r_root_cause (fst (get_state n1 n2 m')) = Some "Unknown error").
Proof.
  apply (unrecognised_mode_accepted
           {| mode := "disk_full"; auto_runbook_delay := 3 |}
           1700000001 "22:13:21" demo_state).
  - discriminate.
  - discriminate.
  - discriminate.
  - reflexivity.
Defined.

(** ** The running process *)

Lemma run_where_invariant (allowed : System -> Event -> bool) (I : System -> Prop) :
  (forall e w w', I w -> allowed w e = true -> fire e w = Some w' -> I w') ->
  forall es w w', I w -> run_where allowed es w = Some w' -> I w'.
Proof.
  intros Hstep es. induction es as [|e es IH]; intros w w' Hw Hrun; simpl in Hrun.
  - by injection Hrun as <-.
  - destruct (allowed w e) eqn:Ha; [|done].
    destruct (fire e w) as [w1|] eqn:Hf; [|done].
    eapply IH; [|exact Hrun]. eauto.
Qed.

Lemma run_where_app allowed es1 : forall es2 w,
  run_where allowed (es1 ++ es2) w =
  match run_where allowed es1 w with
  | Some w1 => run_where allowed es2 w1
  | None => None
  end.
Proof.
  induction es1 as [|e es1 IH]; intros es2 w; simpl; [done|].
  destruct (allowed w e); [|done]. destruct (fire e w); [|done]. apply IH.
Qed.










Lemma delayed_runbook_guard r m :
  match delayed_runbook r m with
  | Some o =>
      status (state m) = "unhealthy" /\ runbook_running (state m) = false /\
      o = run_runbook_enter r m
  | None =>
      status (state m) <> "unhealthy" \/ runbook_running (state m) = true
  end.
Proof.
  unfold delayed_runbook.
  destruct (String.eqb_spec (status (state m)) "unhealthy") as [H|H];
    cbv [andb]; [|by left].
  destruct (runbook_running (state m)); cbv [negb]; [by right|done].
Qed.



(** ** The chaos mode along the life of the process *)






Ltac fire_cases e w :=
  destruct w as [m n rb]; destruct e; unfold fire; cbv [mem delayed runbooks] in *.




Lemma demo_trace_runs : run demo_trace demo_boot = Some (after demo_trace demo_boot).
Proof. vm_compute. reflexivity. Qed.



(** A reset served while the runbook sleeps before its restart phase: the
    phase then sets the status to recovering on a state whose chaos mode the
    reset cleared. *)
Lemma reset_mid_run_unsets_mode :
  exists w,
    reachable w /\
    status (state (mem w)) = "recovering" /\
    chaos_mode (state (mem w)) = None.
Proof.
  exists (after demo_reset_trace demo_boot).
  split; [|split; vm_compute; reflexivity].
  exists 1700000000%Q, "22:13:20", "22:13:20", "22:13:20", demo_reset_trace.
  vm_compute. reflexivity.
Qed.

(** ** A runbook among the other threads *)


Lemma on_track_status clk t0 chaos sp fr m :
  on_track clk t0 chaos sp fr m ->
  match sp with
  | InRestartB => status (state m) = "recovering"
  | InVerify | InNotify => status (state m) = "healthy"
  | _ => True
  end.
Proof. intros (_ & _ & _ & _ & _ & H). destruct sp; try done; by destruct H. Qed.

















(** ** [run_runbook] as a trace of the process

    The call followed by [run_runbook] is the trace in which the delayed
    check passes its guard and the thread is woken six times, the log
    generator ticking in between. *)

Lemma run_ticks ticks : forall w,
  run (tick_events ticks) w =
  Some {| mem := background ticks (mem w); delayed := delayed w;
          runbooks := runbooks w |}.
Proof.
  induction ticks as [|[pick t] ticks IH]; intros w.
  - by destruct w.
  - unfold run in *. simpl. rewrite IH. reflexivity.
Qed.

Lemma resume_sleeps r fr m :
  at_sleep fr <> InNotify ->
  exists fr' m', resume r fr m = Sleeping fr' m' /\
    at_sleep fr' = next_sleep (at_sleep fr).
Proof.
  destruct fr as [sp a]. unfold resume, loop_head. cbv [at_sleep].
  destruct sp; intros H; try done; cbv zeta; by eexists _, _.
Qed.

Lemma wake_and_then r ticks fr m n :
  at_sleep fr <> InNotify ->
  exists fr' m',
    and_then r ticks (Sleeping fr m) = Sleeping fr' m' /\
    at_sleep fr' = next_sleep (at_sleep fr) /\
    run (tick_events ticks ++ [RunbookWake 0 r])
      {| mem := m; delayed := n; runbooks := [fr] |} =
    Some {| mem := m'; delayed := n; runbooks := [fr'] |}.
Proof.
  intros Hsp. unfold and_then.
  destruct (resume_sleeps r fr (background ticks m) Hsp) as (fr' & m' & E & Hn).
  exists fr', m'. split; [done|]. split; [done|].
  unfold run. rewrite run_where_app. fold run. rewrite run_ticks.
  unfold run. simpl. rewrite E. reflexivity.
Qed.

Lemma enter_sleeps_at r m :
  exists fr m', run_runbook_enter r m = Sleeping fr m' /\ at_sleep fr = InDetect.
Proof. unfold run_runbook_enter, loop_head. cbv zeta. by eexists _, _. Qed.

Lemma resume_notify_ends r fr m :
  at_sleep fr = InNotify ->
  (exists m', resume r fr m = Returned m') \/ resume r fr m = Raised m.
Proof.
  destruct fr as [sp a]. unfold resume. cbv [at_sleep]. intros ->.
  destruct (incident_resolved_at (state m)), (incident_started_at (state m));
    by eauto.
Qed.

Lemma run_runbook_is_a_trace clk ticks (w : System) n :
  runbooks w = [] -> delayed w = S n ->
  status (state (mem w)) = "unhealthy" ->
  runbook_running (state (mem w)) = false ->
  run (DelayOver (clk 0%nat) ::
       (tick_events (ticks 0%nat) ++ [RunbookWake 0 (clk 1%nat)]) ++
       (tick_events (ticks 1%nat) ++ [RunbookWake 0 (clk 2%nat)]) ++
       (tick_events (ticks 2%nat) ++ [RunbookWake 0 (clk 3%nat)]) ++
       (tick_events (ticks 3%nat) ++ [RunbookWake 0 (clk 4%nat)]) ++
       (tick_events (ticks 4%nat) ++ [RunbookWake 0 (clk 5%nat)]) ++
       (tick_events (ticks 5%nat) ++ [RunbookWake 0 (clk 6%nat)])) w =
  Some {| mem := memory_of (run_runbook clk ticks (mem w)); delayed := n;
          runbooks := [] |}.
Proof.
  intros Hrb Hd Hs Hr. destruct w as [m k rb]. cbv [mem delayed runbooks] in *.
  subst rb k. unfold run_runbook. cbv zeta.
  destruct (enter_sleeps_at (clk 0%nat) m) as (f0 & m0 & E0 & H0).
  rewrite E0.
  destruct (wake_and_then (clk 1%nat) (ticks 0%nat) f0 m0 n) as (f1 & m1 & -> & H1 & T1);
    [by rewrite H0|]. rewrite H0 in H1. simpl in H1.
  destruct (wake_and_then (clk 2%nat) (ticks 1%nat) f1 m1 n) as (f2 & m2 & -> & H2 & T2);
    [by rewrite H1|]. rewrite H1 in H2. simpl in H2.
  destruct (wake_and_then (clk 3%nat) (ticks 2%nat) f2 m2 n) as (f3 & m3 & -> & H3 & T3);
    [by rewrite H2|]. rewrite H2 in H3. simpl in H3.
  destruct (wake_and_then (clk 4%nat) (ticks 3%nat) f3 m3 n) as (f4 & m4 & -> & H4 & T4);
    [by rewrite H3|]. rewrite H3 in H4. simpl in H4.
  destruct (wake_and_then (clk 5%nat) (ticks 4%nat) f4 m4 n) as (f5 & m5 & -> & H5 & T5);
    [by rewrite H4|]. rewrite H4 in H5. simpl in H5.
  unfold run in *. simpl run_where. unfold delayed_runbook.
  cbv [mem delayed runbooks]. rewrite Hs, Hr. simpl andb. cbv iota.
  rewrite E0. simpl app.
  rewrite run_where_app, T1, run_where_app, T2, run_where_app, T3,
    run_where_app, T4, run_where_app, T5.
  rewrite run_where_app. fold run. rewrite run_ticks. unfold run. simpl.
  unfold and_then.
  destruct (resume_notify_ends (clk 6%nat) f5 (background (ticks 5%nat) m5) H5)
    as [[m' ->]| ->]; reflexivity.
Qed.

(** With a reset in the pattern the flag no longer tells: the reset lowers
    it while the first thread sleeps inside [run_runbook], and the delayed
    check of the next incident lets a second thread in. *)
Lemma reset_allows_second_runbook :
  exists w, reachable w /\ length (runbooks w) = 2%nat.
Proof.
  exists (after demo_double_trace demo_boot).
  split; [|vm_compute; reflexivity].
  exists 1700000000%Q, "22:13:20", "22:13:20", "22:13:20", demo_double_trace.
  vm_compute. reflexivity.
Qed.

(** * Further properties *)

Lemma fire_writes e w w' :
  fire e w = Some w' -> writes (is_reset e) w (mem w').
Proof.
  destruct w as [m n rb]. destruct e; unfold fire; cbv [mem delayed runbooks].
  - intros [= <-]. by apply writes_nothing.
  - intros [= <-]. by apply writes_nothing.
  - intros [= <-]. by apply writes_nothing.
  - destruct (trigger_chaos req now utcnow (state m)) as [[resp s] thr] eqn:E.
    intros [= <-]. apply (writes_chaos _ _ _ req now utcnow).
    unfold on_state. cbv [mem]. by rewrite E.
  - intros [= <-]. by apply (writes_reset _ _ _ now t1 t2 t3).
  - intros [= <-]. by apply (writes_tick _ _ _ pick utcnow).
  - destruct n as [|n]; [done|].
    pose proof (delayed_runbook_guard r m) as Hg.
    destruct (delayed_runbook r m) as [o|].
    + destruct Hg as (Hs & Hr & ->).
      destruct (run_runbook_enter r m) eqn:E; intros [= <-];
        apply (writes_enter _ _ _ r); cbv [mem]; rewrite ?E; done.
    + intros [= <-]. by apply writes_nothing.
  - destruct (rb !! k) as [fr|] eqn:Hk; [|done].
    assert (fr ∈ rb) by (by eapply list_elem_of_lookup_2).
    destruct (resume r fr m) eqn:E; intros [= <-];
      apply (writes_resume _ _ _ r fr); cbv [mem runbooks]; rewrite ?E; done.
Qed.

(** A property of the state that every writer keeps holds in every state
    the process reaches. *)
Lemma reachable_state (P : ServiceState -> Prop) :
  (forall now t1 t2 t3 s, P (reset now t1 t2 t3 s)) ->
  (forall req now t s, P s -> P (snd (fst (trigger_chaos req now t s)))) ->
  (forall pick t s, P s -> P (log_generator pick t s)) ->
  (forall r m, P (state m) -> P (state (memory_of (run_runbook_enter r m)))) ->
  (forall r fr m, P (state m) -> P (state (memory_of (resume r fr m)))) ->
  forall w, reachable w -> P (state (mem w)).
Proof.
  intros Hreset Hchaos Htick Henter Hresume w (now & t1 & t2 & t3 & es & Hrun).
  revert Hrun.
  apply (run_where_invariant _ (fun w => P (state (mem w)))).
  - intros e v v' Hv _ Hf.
    destruct (fire_writes e v v' Hf)
      as [E|req now' t E|now' a b c _ E|pick t E|r _ _ E|r fr _ E]; rewrite E.
    + exact Hv.
    + unfold on_state. cbn [state]. by apply Hchaos.
    + unfold on_state. cbn [state]. apply Hreset.
    + unfold on_state. cbn [state]. by apply Htick.
    + by apply Henter.
    + by apply Hresume.
  - unfold boot, init. cbn [mem state]. apply Hreset.
Qed.

Ltac solve_appends :=
  unfold appends, push; cbv [logs set_logs];
  first [ left; reflexivity
        | right; eexists; split; cycle 1;
          [reflexivity | first [left; reflexivity | right; reflexivity]] ].

(** What each writer does to the attributes. *)
Lemma resume_effect r fr m :
  let s := state m in
  let s' := state (memory_of (resume r fr m)) in
  chaos_mode s' = chaos_mode s /\
  started_at s' = started_at s /\
  incident_started_at s' = incident_started_at s /\
  payment_counter s' = payment_counter s /\
  (status s' = status s /\ incident_resolved_at s' = incident_resolved_at s \/
   status s' = "recovering" /\ incident_resolved_at s' = incident_resolved_at s \/
   status s' = "healthy" /\ incident_resolved_at s' = Some (time_time r)) /\
  appends s s'.
Proof.
  destruct fr as [sp a]. open_memory m. unfold resume. cbv [at_sleep step].
  destruct sp; [..|destruct ira, isa]; run_block; cbv [memory_of state];
    run_block; (do 4 (split; [reflexivity|])); (split; [|solve_appends]);
    eauto.
Qed.

Lemma enter_effect r m :
  let s := state m in
  let s' := state (memory_of (run_runbook_enter r m)) in
  status s' = status s /\ chaos_mode s' = chaos_mode s /\
  started_at s' = started_at s /\
  incident_started_at s' = incident_started_at s /\
  incident_resolved_at s' = incident_resolved_at s /\
  payment_counter s' = payment_counter s /\
  runbook_running s' = true /\
  appends s s'.
Proof.
  open_memory m. unfold run_runbook_enter. run_block. cbv [memory_of state].
  run_block. (do 7 (split; [reflexivity|])). solve_appends.
Qed.

Lemma log_generator_effect pick t s :
  let s' := log_generator pick t s in
  status s' = status s /\ chaos_mode s' = chaos_mode s /\
  started_at s' = started_at s /\
  incident_started_at s' = incident_started_at s /\
  incident_resolved_at s' = incident_resolved_at s /\
  runbook_steps s' = runbook_steps s /\
  runbook_running s' = runbook_running s /\
  (payment_counter s' = payment_counter s \/
   payment_counter s' = payment_counter s + 1) /\
  appends s s'.
Proof.
  destruct (decide (status s = "healthy")) as [Hh|Hh].
  - rewrite log_generator_healthy by done. cbv zeta.
    (do 7 (split; [reflexivity|])). split; [by right|].
    unfold appends. right. eexists. split; cycle 1; [reflexivity|left; reflexivity].
  - destruct (decide (status s = "unhealthy")) as [Hu|Hu].
    + rewrite log_generator_unhealthy by done. cbv zeta.
      (do 7 (split; [reflexivity|])). split; [by left|].
      unfold appends. right. eexists. split; cycle 1; [reflexivity|right; reflexivity].
    + rewrite log_generator_idle by done. cbv zeta.
      (do 7 (split; [reflexivity|])). split; [by left|]. by left.
Qed.

Lemma trigger_chaos_effect req now t s :
  let s' := snd (fst (trigger_chaos req now t s)) in
  started_at s' = started_at s /\
  runbook_running s' = runbook_running s /\
  payment_counter s' = payment_counter s /\
  appends s s' /\
  (s' = s \/
   status s = "healthy" /\ status s' = "unhealthy" /\
   chaos_mode s' = Some (mode req) /\
   incident_started_at s' = Some now /\ incident_resolved_at s' = None /\
   runbook_steps s' = []).
Proof.
  destruct (decide (status s = "healthy")) as [Hh|Hh].
  - rewrite trigger_chaos_accepted by done. cbv zeta. cbn [fst snd].
    (do 3 (split; [reflexivity|])). split; [solve_appends|].
    right. by repeat split.
  - rewrite trigger_chaos_rejected by done. cbv zeta. cbn [fst snd].
    (do 3 (split; [reflexivity|])). split; [by left|by left].
Qed.

Lemma demo_reachable : reachable (after demo_trace demo_boot).
Proof.
  exists 1700000000%Q, "22:13:20", "22:13:20", "22:13:20", demo_trace.
  exact demo_trace_runs.
Qed.

Lemma demo_unhealthy_reachable : reachable demo_unhealthy.
Proof.
  exists 1700000000%Q, "22:13:20", "22:13:20", "22:13:20",
    [ PostChaos {| mode := "timeout"; auto_runbook_delay := 0 |}
        1700000001 "22:13:21" ].
  vm_compute. reflexivity.
Qed.

(** X1. In every state the process can reach the status is one of the
    three strings the code ever assigns. *)
Theorem status_is_known (w : System) :
  reachable w ->
  status (state (mem w)) = "healthy" \/
  status (state (mem w)) = "unhealthy" \/
  status (state (mem w)) = "recovering".
Proof.
  revert w. apply (reachable_state known_status); unfold known_status.
  - intros. rewrite reset_value. by left.
  - intros req now t s H.
    destruct (trigger_chaos_effect req now t s) as (_ & _ & _ & _ & [->|(_ & -> & _)]);
      auto.
  - intros pick t s H.
    destruct (log_generator_effect pick t s) as (-> & _). done.
  - intros r m H. destruct (enter_effect r m) as (-> & _). done.
  - intros r fr m H.
    destruct (resume_effect r fr m)
      as (_ & _ & _ & _ & [[-> _]|[[-> _]|[-> _]]] & _); auto.
Qed.

Lemma status_is_known_witness :
  status (state (mem demo_unhealthy)) = "healthy" \/
  status (state (mem demo_unhealthy)) = "unhealthy" \/
  status (state (mem demo_unhealthy)) = "recovering".
Proof. apply (status_is_known demo_unhealthy). exact demo_unhealthy_reachable. Defined.


Lemma appends_known s s' :
  appends s s' -> Forall known_level (logs s) -> Forall known_level (logs s').
Proof.
  intros [->|(e & He & ->)] H; [done|].
  unfold push, last_n, set_logs. cbn [logs]. apply Forall_drop.
  apply Forall_app. split; [done|]. constructor; [exact He|constructor].
Qed.

Lemma appends_reachable (P : ServiceState -> Prop) :
  (forall now t1 t2 t3 s, P (reset now t1 t2 t3 s)) ->
  (forall s s', appends s s' -> P s -> P s') ->
  forall w, reachable w -> P (state (mem w)).
Proof.
  intros Hreset Happ. apply (reachable_state P); [done|..].
  - intros req now t s. apply Happ.
    by destruct (trigger_chaos_effect req now t s) as (_ & _ & _ & ? & _).
  - intros pick t s. apply Happ.
    by destruct (log_generator_effect pick t s) as (_ & _ & _ & _ & _ & _ & _ & _ & ?).
  - intros r m. apply Happ.
    by destruct (enter_effect r m) as (_ & _ & _ & _ & _ & _ & _ & ?).
  - intros r fr m. apply Happ.
    by destruct (resume_effect r fr m) as (_ & _ & _ & _ & _ & ?).
Qed.



(** X3. In every state the process can reach every entry of the buffer has
    level INFO or ERROR: no caller of [add_log] passes another level, also
    for the canned texts that start with WARN or FATAL. *)
Theorem log_levels_info_or_error (w : System) :
  reachable w ->
  Forall (fun e => level e = "INFO" \/ level e = "ERROR") (logs (state (mem w))).
Proof.
  revert w.
  apply (appends_reachable (fun s => Forall known_level (logs s))).
  - intros. rewrite reset_value. cbv [logs seed_logs].
    repeat constructor.
  - apply appends_known.
Qed.

Lemma log_levels_info_or_error_witness :
  Forall (fun e => level e = "INFO" \/ level e = "ERROR")
    (logs (state (mem demo_unhealthy))).
Proof.
  apply (log_levels_info_or_error demo_unhealthy). exact demo_unhealthy_reachable.
Defined.




Lemma fire_counter e w w' :
  fire e w = Some w' -> is_reset e = false ->
  payment_counter (state (mem w)) <= payment_counter (state (mem w')) <=
  payment_counter (state (mem w)) + Z.of_nat (if is_tick e then 1 else 0).
Proof.
  intros Hf Hr. revert Hf. fire_cases e w; try done; cbn [is_tick].
  - intros [= <-]. cbn [mem]. lia.
  - intros [= <-]. cbn [mem]. lia.
  - intros [= <-]. cbn [mem]. lia.
  - pose proof (trigger_chaos_effect req now utcnow (state m)) as (_ & _ & Hc & _).
    destruct (trigger_chaos req now utcnow (state m)) as [[resp s] thr].
    intros [= <-]. cbn [mem state fst snd] in *. lia.
  - intros [= <-]. cbn [mem]. unfold on_state. cbn [state].
    destruct (log_generator_effect pick utcnow (state m))
      as (_ & _ & _ & _ & _ & _ & _ & [->| ->] & _); lia.
  - destruct n as [|n]; [done|].
    pose proof (delayed_runbook_guard r m) as Hg.
    destruct (delayed_runbook r m) as [o|].
    + destruct Hg as (_ & _ & ->).
      destruct (enter_effect r m) as (_ & _ & _ & _ & _ & Hc & _).
      destruct (run_runbook_enter r m); intros [= <-];
        cbn [mem memory_of] in *; lia.
    + intros [= <-]. cbn [mem]. lia.
  - destruct (rb !! k) as [fr|]; [|done].
    destruct (resume_effect r fr m) as (_ & _ & _ & Hc & _).
    destruct (resume r fr m); intros [= <-]; cbn [mem memory_of] in *; lia.
Qed.

Lemma run_without_reset_counter es : forall w w',
  run_without_reset es w = Some w' ->
  payment_counter (state (mem w)) <= payment_counter (state (mem w')) <=
  payment_counter (state (mem w)) + Z.of_nat (count is_tick es).
Proof.
  unfold run_without_reset.
  induction es as [|e es IH]; intros w w' Hrun; simpl in Hrun.
  - injection Hrun as <-. simpl. lia.
  - destruct (is_reset e) eqn:Hr; [done|]. simpl in Hrun.
    destruct (fire e w) as [w1|] eqn:Hf; [|done].
    apply IH in Hrun. pose proof (fire_counter e w w1 Hf Hr) as H1.
    cbn [count]. destruct (is_tick e); lia.
Qed.

Lemma counter_not_negative w :
  reachable w -> 0 <= payment_counter (state (mem w)).
Proof.
  revert w. apply (reachable_state (fun s => 0 <= payment_counter s)).
  - intros. rewrite reset_value. done.
  - intros req now t s H.
    destruct (trigger_chaos_effect req now t s) as (_ & _ & -> & _). done.
  - intros pick t s H.
    destruct (log_generator_effect pick t s)
      as (_ & _ & _ & _ & _ & _ & _ & [->| ->] & _); lia.
  - intros r m H. destruct (enter_effect r m) as (_ & _ & _ & _ & _ & -> & _). done.
  - intros r fr m H. destruct (resume_effect r fr m) as (_ & _ & _ & -> & _). done.
Qed.

(** X5. From a state the process can reach, along any trace without
    reset, [payment_counter] is never negative, never decreases, and grows
    by at most one for each iteration of the log generator. *)
Theorem payment_counter_only_grows (w1 w2 : System) (es : list Event) :
  reachable w1 ->
  run_without_reset es w1 = Some w2 ->
  0 <= payment_counter (state (mem w1)) <= payment_counter (state (mem w2)) /\
  payment_counter (state (mem w2)) <=
    payment_counter (state (mem w1)) + Z.of_nat (count is_tick es).
Proof.
  intros H1 H2. pose proof (counter_not_negative w1 H1).
  pose proof (run_without_reset_counter es w1 w2 H2). lia.
Qed.

Lemma payment_counter_only_grows_witness :
  let w2 := after (sleeps demo_clock demo_bg) demo_unhealthy in
  0 <= payment_counter (state (mem demo_unhealthy))
    <= payment_counter (state (mem w2)) /\
  payment_counter (state (mem w2)) <=
    payment_counter (state (mem demo_unhealthy)) +
    Z.of_nat (count is_tick (sleeps demo_clock demo_bg)).
Proof.
  apply (payment_counter_only_grows demo_unhealthy
           (after (sleeps demo_clock demo_bg) demo_unhealthy)
           (sleeps demo_clock demo_bg)).
  - exact demo_unhealthy_reachable.
  - vm_compute. reflexivity.
Defined.




Lemma flag_stuck_step e w w' :
  flag_stuck w -> is_reset e = false -> fire e w = Some w' ->
  flag_stuck w' /\
  (status (state (mem w)) = "unhealthy" -> mem w' = mem w \/
     exists pick t, mem w' = on_state (log_generator pick t) (mem w)) /\
  (status (state (mem w)) = "unhealthy" ->
   status (state (mem w')) = "unhealthy").
Proof.
  unfold flag_stuck. intros [Hrb Hflag] Hr. fire_cases e w; try done.
  - intros [= <-]. cbn [mem runbooks]. auto.
  - intros [= <-]. cbn [mem runbooks]. auto.
  - intros [= <-]. cbn [mem runbooks]. auto.
  - pose proof (trigger_chaos_effect req now utcnow (state m))
      as (_ & Hk & _ & _ & Ht).
    destruct (decide (status (state m) = "healthy")) as [Hh|Hh].
    + rewrite trigger_chaos_accepted in * by done. intros [= <-].
      cbn [mem runbooks state fst snd] in *. rewrite Hh.
      repeat split; done.
    + rewrite trigger_chaos_rejected in * by done. intros [= <-].
      cbn [mem runbooks state fst snd] in *.
      repeat split; try done. intros _. left. by destruct m.
  - intros [= <-]. cbn [mem runbooks].
    destruct (log_generator_effect pick utcnow (state m))
      as (Hs & _ & _ & _ & _ & _ & Hk & _).
    split; [split; [done|]|split].
    + unfold on_state. cbn [state]. by rewrite Hk.
    + intros _. right. by exists pick, utcnow.
    + unfold on_state. cbn [state]. by rewrite Hs.
  - destruct n as [|n]; [done|].
    pose proof (delayed_runbook_guard r m) as Hg.
    destruct (delayed_runbook r m) as [o|].
    + destruct Hg as (_ & Hf & _). congruence.
    + intros [= <-]. cbn [mem runbooks]. auto.
  - subst rb. done.
Qed.

(** X7. When no thread is inside [run_runbook] and yet [runbook_running]
    is true and the status is unhealthy (what a runbook that raised leaves
    behind), it stays so along every trace without reset: no thread enters
    [run_runbook], the flag stays up, the status stays unhealthy and every
    delayed check declines. *)
Theorem dead_runbook_blocks_recovery (w w' : System) (es : list Event) :
  runbooks w = [] ->
  runbook_running (state (mem w)) = true ->
  status (state (mem w)) = "unhealthy" ->
  run_without_reset es w = Some w' ->
  runbooks w' = [] /\
  runbook_running (state (mem w')) = true /\
  status (state (mem w')) = "unhealthy" /\
  (forall r, delayed_runbook r (mem w') = None).
Proof.
  intros Hrb Hflag Hst Hrun.
  assert (flag_stuck w' /\ status (state (mem w')) = "unhealthy") as [[H1 H2] H3].
  { revert Hrun.
    apply (run_where_invariant _
             (fun v => flag_stuck v /\ status (state (mem v)) = "unhealthy")).
    - intros e v v' [Hv Hs] Ha Hf.
      destruct (flag_stuck_step e v v' Hv) as (? & _ & ?); auto.
      by destruct (is_reset e).
    - done. }
  repeat split; try done. intros r. unfold delayed_runbook.
  rewrite H2. by rewrite andb_false_r.
Qed.

Lemma dead_runbook_blocks_recovery_witness :
  let w := after demo_death_trace demo_boot in
  let w' := after demo_after_death w in
  runbooks w' = [] /\
  runbook_running (state (mem w')) = true /\
  status (state (mem w')) = "unhealthy" /\
  (forall r, delayed_runbook r (mem w') = None).
Proof.
  apply (dead_runbook_blocks_recovery (after demo_death_trace demo_boot)
           (after demo_after_death (after demo_death_trace demo_boot))
           demo_after_death).
  - vm_compute. reflexivity.
  - vm_compute. reflexivity.
  - vm_compute. reflexivity.
  - vm_compute. reflexivity.
Defined.


(** ** Rounding and the timing fields *)

Lemma py_round_close (x : Q) :
  (inject_Z (py_round x) - (1 # 2) <= x <= inject_Z (py_round x) + (1 # 2))%Q.
Proof.
  unfold py_round. pose proof (Qfloor_le x) as Hl. pose proof (Qlt_floor x) as Hu.
  rewrite inject_Z_plus in Hu. change (inject_Z 1) with 1%Q in Hu.
  destruct (x - inject_Z (Qfloor x) ?= 1 # 2)%Q eqn:E.
  - apply Qeq_alt in E. destruct (Z.even (Qfloor x)); rewrite ?inject_Z_plus;
      change (inject_Z 1) with 1%Q; split; lra.
  - apply Qlt_alt in E. split; lra.
  - apply Qgt_alt in E. rewrite inject_Z_plus. change (inject_Z 1) with 1%Q.
    split; lra.
Qed.

Lemma py_round_nonneg (x : Q) : (0 <= x)%Q -> 0 <= py_round x.
Proof.
  intros H. unfold py_round.
  assert (0 <= Qfloor x).
  { change 0 with (Qfloor 0). apply Qfloor_resp_le. exact H. }
  destruct (_ ?= _)%Q; [destruct (Z.even _)|..]; lia.
Qed.

Lemma truthy_float_nonzero (t : Q) : ~ (t == 0)%Q -> truthy_float (Some t) = true.
Proof.
  intros H. cbn [truthy_float]. destruct (Qeq_bool t 0) eqn:E; [|done].
  apply Qeq_bool_iff in E. done.
Qed.



Lemma completed_mttr clk t0 chaos n1 n2 m' :
  completed clk t0 chaos m' ->
  ~ (t0 == 0)%Q -> ~ (time_time (clk 4%nat) == 0)%Q ->
  r_mttr (fst (get_state n1 n2 m')) =
    Some (py_round (time_time (clk 4%nat) - t0)).
Proof.
  intros (_ & _ & Hs & Hr & _) H0 H4.
  unfold get_state. cbn [fst r_mttr]. rewrite Hs, Hr.
  rewrite (truthy_float_nonzero _ H0), (truthy_float_nonzero _ H4). done.
Qed.

(** X10. After a call of [run_runbook] (the log generator running beside
    it) on a state whose incident start and restart reading are not [0.0]
    and in clock order, [GET /state] reports as [mttr] the very number the
    incident report logged; that number is not negative and within half a
    second of [incident_resolved_at - incident_started_at], and
    [incident_elapsed] is absent. *)
Theorem mttr_reported_as_logged (clk : nat -> Readings)
  (ticks : nat -> list (nat * string)) (m : Memory) (t0 : Q) (n1 n2 : Q) :
  incident_started_at (state m) = Some t0 ->
  ~ (t0 == 0)%Q -> ~ (time_time (clk 4%nat) == 0)%Q ->
  (t0 <= time_time (clk 4%nat))%Q ->
  exists m' mttr,
    run_runbook clk ticks m = Returned m' /\
    last (logs (state m')) =
      Some {| timestamp := utcnow_log (clk 6%nat); level := "INFO";
              message := "📨 Incident report: MTTR=" +:+ str_int mttr +:+
                         "s | Root cause: " +:+ str_opt (chaos_mode (state m)) |} /\
    r_mttr (fst (get_state n1 n2 m')) = Some mttr /\
    r_incident_elapsed (fst (get_state n1 n2 m')) = None /\
    0 <= mttr /\
    (inject_Z mttr - (1 # 2) <= time_time (clk 4%nat) - t0
       <= inject_Z mttr + (1 # 2))%Q.
Proof.
  intros Hs H0 H4 Hle.
  destruct (run_runbook_completes clk ticks t0 m Hs) as (m' & Hrun & Hdone).
  exists m', (py_round (time_time (clk 4%nat) - t0)).
  split; [done|]. split; [by destruct Hdone as (_ & _ & _ & _ & _ & _ & ?)|].
  split; [by apply (completed_mttr clk t0 (chaos_mode (state m)))|].
  split.
  { destruct Hdone as (_ & _ & Hst & Hr & _).
    unfold get_state. cbn [fst r_incident_elapsed]. rewrite Hst, Hr.
    rewrite (truthy_float_nonzero _ H0), (truthy_float_nonzero _ H4). done. }
  split; [apply py_round_nonneg; lra|apply py_round_close].
Qed.

Lemma mttr_reported_as_logged_witness :
  exists m' mttr,
    run_runbook demo_clock (fun _ => []) (mem demo_unhealthy) = Returned m' /\
    last (logs (state m')) =
      Some {| timestamp := utcnow_log (demo_clock 6%nat); level := "INFO";
              message := "📨 Incident report: MTTR=" +:+ str_int mttr +:+
                         "s | Root cause: " +:+
                         str_opt (chaos_mode (state (mem demo_unhealthy))) |} /\
    r_mttr (fst (get_state 0 0 m')) = Some mttr /\
    r_incident_elapsed (fst (get_state 0 0 m')) = None /\
    0 <= mttr /\
    (inject_Z mttr - (1 # 2) <= time_time (demo_clock 4%nat) - 1700000001
       <= inject_Z mttr + (1 # 2))%Q.
Proof.
  apply (mttr_reported_as_logged demo_clock (fun _ => []) (mem demo_unhealthy)
           1700000001 0 0).
  - reflexivity.
  - vm_compute. discriminate.
  - vm_compute. discriminate.
  - vm_compute. discriminate.
Defined.

Lemma last_n_last_n {A} (n k : nat) (xs : list A) :
  (n <= k)%nat -> last_n n (last_n k xs) = last_n n xs.
Proof.
  intros H. unfold last_n. rewrite length_drop, drop_drop. f_equal. lia.
Qed.

Lemma append_all_set_payment_counter es : forall c s,
  append_all es (set_payment_counter c s) =
  set_payment_counter c (append_all es s).
Proof.
  unfold append_all.
  induction es as [|e es IH]; intros c s; [done|]. cbn [fold_left].
  rewrite <- IH. f_equal. rewrite !_add_log_push. reflexivity.
Qed.

(** X11. After any sequence of [_add_log] calls on a buffer within
    capacity, [GET /logs] and the logs of [GET /state] are the last five of
    the old entries followed by the new ones, as if the buffer had never been
    trimmed; in particular the entry appended last is the last one
    returned. *)
Theorem get_logs_after_appends (es : list LogEntry) (m : Memory) :
  (length (logs (state m)) <= 50)%nat ->
  let m' := on_state (append_all es) m in
  fst (get_logs m') = last_n 5 (logs (state m) ++ es) /\
  (forall n1 n2, r_logs (fst (get_state n1 n2 m')) = last_n 5 (logs (state m) ++ es)) /\
  (forall e, last es = Some e -> last (fst (get_logs m')) = Some e).
Proof.
  intros Hcap m'.
  assert (H : fst (get_logs m') = last_n 5 (logs (state m) ++ es)).
  { subst m'. unfold get_logs, on_state. cbn [fst state].
    rewrite append_all_logs. destruct es as [|e es].
    - by rewrite app_nil_r.
    - apply last_n_last_n. lia. }
  split; [exact H|]. split; [intros; exact H|].
  intros e He. rewrite H.
  destruct es as [|e0 es] using rev_ind; [done|].
  rewrite last_snoc in He. injection He as ->.
  rewrite app_assoc. apply last_last_n_snoc. lia.
Qed.

Lemma get_logs_after_appends_witness :
  let m := {| state := demo_state; dicts := [] |} in
  let m' := on_state (append_all demo_entries) m in
  fst (get_logs m') = last_n 5 (logs (state m) ++ demo_entries) /\
  (forall n1 n2,
     r_logs (fst (get_state n1 n2 m')) = last_n 5 (logs (state m) ++ demo_entries)) /\
  (forall e, last demo_entries = Some e -> last (fst (get_logs m')) = Some e).
Proof.
  apply (get_logs_after_appends demo_entries {| state := demo_state; dicts := [] |}).
  vm_compute. lia.
Defined.

Lemma payment_entries_cons c t ticks :
  payment_entries c (t :: ticks) =
  {| timestamp := snd t; level := "INFO";
     message := "Payment processed OK — $" +:+
                str_int (random_choice 0 (fst t) amounts) +:+
                " (txn #" +:+ str_int (c + 1000) +:+ ")" |}
  :: payment_entries (c + 1) ticks.
Proof.
  unfold payment_entries. rewrite imap_cons. f_equal.
  - cbn [Z.of_nat]. by rewrite Z.add_0_r.
  - apply imap_ext. intros j x _. cbn. do 6 f_equal. lia.
Qed.

Lemma healthy_ticks ticks : forall s,
  status s = "healthy" ->
  fold_left (fun s t => log_generator (fst t) (snd t) s) ticks s =
  set_payment_counter (payment_counter s + Z.of_nat (length ticks))
    (append_all (payment_entries (payment_counter s) ticks) s).
Proof.
  induction ticks as [|t ticks IH]; intros s Hs.
  - cbn. rewrite Z.add_0_r. by destruct s.
  - cbn [fold_left]. rewrite log_generator_healthy by done.
    rewrite IH by done. rewrite payment_entries_cons.
    cbn [payment_counter set_payment_counter length].
    unfold append_all at 2. cbn [fold_left]. fold (append_all).
    rewrite _add_log_push. cbn [timestamp level message].
    rewrite append_all_set_payment_counter.
    cbv [set_payment_counter]. cbn. f_equal. lia.
Qed.

Lemma background_state ticks : forall m,
  state (background ticks m) =
  fold_left (fun s t => log_generator (fst t) (snd t) s) ticks (state m).
Proof.
  induction ticks as [|t ticks IH]; intros m; [done|].
  cbn [background fold_left]. fold (background ticks). by rewrite IH.
Qed.

(** X12. Any number of consecutive iterations of the log generator on a
    healthy state leave it healthy, raise [payment_counter] by their number
    and append one INFO entry each, the [j]-th (from 0) being a payment of an
    amount of the candidate list tagged [payment_counter + 1000 + j]:
    transaction numbers are consecutive. *)
Theorem payments_are_numbered (ticks : list (nat * string)) (m : Memory) :
  status (state m) = "healthy" ->
  let c := payment_counter (state m) in
  let s' := state (background ticks m) in
  s' = set_payment_counter (c + Z.of_nat (length ticks))
         (append_all (payment_entries c ticks) (state m)) /\
  payment_counter s' = c + Z.of_nat (length ticks) /\
  status s' = "healthy" /\
  (forall j t, ticks !! j = Some t ->
     exists e, payment_entries c ticks !! j = Some e /\
       level e = "INFO" /\ timestamp e = snd t /\
       exists amount, amount ∈ amounts /\
         message e = "Payment processed OK — $" +:+ str_int amount +:+
                     " (txn #" +:+ str_int (c + 1000 + Z.of_nat j) +:+ ")").
Proof.
  intros Hs c s'. subst c s'. rewrite background_state.
  rewrite healthy_ticks by done. split; [done|]. split; [done|]. split.
  - cbn [status set_payment_counter].
    generalize (payment_entries (payment_counter (state m)) ticks).
    intros es. unfold append_all.
    revert Hs. generalize (state m).
    induction es as [|e es IH]; intros s Hs; [done|].
    cbn [fold_left]. apply IH. rewrite _add_log_push. done.
  - intros j t Hj. eexists. split.
    + unfold payment_entries. rewrite list_lookup_imap, Hj. reflexivity.
    + cbn [level timestamp message]. repeat split.
      exists (random_choice 0 (fst t) amounts). split; [|reflexivity].
      by apply random_choice_elem.
Qed.

Lemma payments_are_numbered_witness :
  let m := {| state := demo_state; dicts := [] |} in
  let ticks := [(3%nat, "22:13:32"); (8%nat, "22:13:44")] in
  let c := payment_counter (state m) in
  let s' := state (background ticks m) in
  s' = set_payment_counter (c + Z.of_nat (length ticks))
         (append_all (payment_entries c ticks) (state m)) /\
  payment_counter s' = c + Z.of_nat (length ticks) /\
  status s' = "healthy" /\
  (forall j t, ticks !! j = Some t ->
     exists e, payment_entries c ticks !! j = Some e /\
       level e = "INFO" /\ timestamp e = snd t /\
       exists amount, amount ∈ amounts /\
         message e = "Payment processed OK — $" +:+ str_int amount +:+
                     " (txn #" +:+ str_int (c + 1000 + Z.of_nat j) +:+ ")").
Proof.
  apply (payments_are_numbered [(3%nat, "22:13:32"); (8%nat, "22:13:44")]
           {| state := demo_state; dicts := [] |}).
  reflexivity.
Defined.

(** X13. One incident at a time: after an accepted chaos request a second
    one, whatever it asks, is rejected and changes nothing; after a reset
    every chaos request is accepted and starts its delayed check; and a
    delayed check that wakes on a state just reset declines. *)
Theorem one_incident_at_a_time (req1 req2 : ChaosRequest) (now1 now2 : Q)
  (u1 u2 : string) (s : ServiceState) :
  (status s = "healthy" ->
   let s1 := snd (fst (trigger_chaos req1 now1 u1 s)) in
   trigger_chaos req2 now2 u2 s1 =
     (ChaosError "Service is not healthy — reset first", s1, None)) /\
  (forall now t1 t2 t3,
     let s0 := reset now t1 t2 t3 s in
     fst (fst (trigger_chaos req1 now1 u1 s0)) = ChaosOk (mode req1) /\
     snd (trigger_chaos req1 now1 u1 s0) = Some (auto_runbook_delay req1)) /\
  (forall r now t1 t2 t3 m,
     delayed_runbook r (snd (reset_endpoint now t1 t2 t3 m)) = None).
Proof.
  split; [|split].
  - intros Hh s1. subst s1. rewrite (trigger_chaos_accepted req1) by done.
    cbn [fst snd]. by rewrite trigger_chaos_rejected.
  - intros now t1 t2 t3 s0. subst s0. rewrite reset_value.
    by rewrite trigger_chaos_accepted.
  - intros r now t1 t2 t3 m. unfold reset_endpoint, on_state. cbn [snd].
    rewrite reset_value. reflexivity.
Qed.

Lemma run_blocks_all clk ticks m :
  run_blocks 6 clk ticks m = run_runbook clk ticks m.
Proof. reflexivity. Qed.

Lemma run_blocks_on_track clk ticks t0 m n :
  incident_started_at (state m) = Some t0 -> (n <= 5)%nat ->
  exists fr m',
    run_blocks n clk ticks m = Sleeping fr m' /\
    on_track clk t0 (chaos_mode (state m)) (sleep_number n) fr m'.
Proof.
  intros Hs Hn.
  destruct (enter_on_track clk t0 m Hs) as (f0 & m0 & E0 & T0).
  destruct n as [|n]; [by exists f0, m0|].
  destruct (resume_detect _ _ _ _ _ (on_track_background _ _ _ _ _ (ticks 0%nat) _ T0))
    as (f1 & m1 & E1 & T1).
  assert (run_blocks 1 clk ticks m = Sleeping f1 m1) as R1.
  { cbn [run_blocks]. rewrite E0. exact E1. }
  destruct n as [|n]; [by exists f1, m1|].
  destruct (resume_analyse _ _ _ _ _ (on_track_background _ _ _ _ _ (ticks 1%nat) _ T1))
    as (f2 & m2 & E2 & T2).
  assert (run_blocks 2 clk ticks m = Sleeping f2 m2) as R2.
  { change (run_blocks 2 clk ticks m)
      with (and_then (clk 2%nat) (ticks 1%nat) (run_blocks 1 clk ticks m)).
    rewrite R1. exact E2. }
  destruct n as [|n]; [by exists f2, m2|].
  destruct (resume_restart_a _ _ _ _ _ (on_track_background _ _ _ _ _ (ticks 2%nat) _ T2))
    as (f3 & m3 & E3 & T3).
  assert (run_blocks 3 clk ticks m = Sleeping f3 m3) as R3.
  { change (run_blocks 3 clk ticks m)
      with (and_then (clk 3%nat) (ticks 2%nat) (run_blocks 2 clk ticks m)).
    rewrite R2. exact E3. }
  destruct n as [|n]; [by exists f3, m3|].
  destruct (resume_restart_b _ _ _ _ _ (on_track_background _ _ _ _ _ (ticks 3%nat) _ T3))
    as (f4 & m4 & E4 & T4).
  assert (run_blocks 4 clk ticks m = Sleeping f4 m4) as R4.
  { change (run_blocks 4 clk ticks m)
      with (and_then (clk 4%nat) (ticks 3%nat) (run_blocks 3 clk ticks m)).
    rewrite R3. exact E4. }
  destruct n as [|n]; [by exists f4, m4|].
  destruct (resume_verify _ _ _ _ _ (on_track_background _ _ _ _ _ (ticks 4%nat) _ T4))
    as (f5 & m5 & E5 & T5).
  assert (run_blocks 5 clk ticks m = Sleeping f5 m5) as R5.
  { change (run_blocks 5 clk ticks m)
      with (and_then (clk 5%nat) (ticks 4%nat) (run_blocks 4 clk ticks m)).
    rewrite R4. exact E5. }
  destruct n as [|n]; [by exists f5, m5|]. lia.
Qed.

Lemma on_track_steps clk t0 chaos sp fr m :
  on_track clk t0 chaos sp fr m -> steps_of m = steps_at clk chaos sp.
Proof.
  intros (_ & _ & _ & _ & (pre & Hd & Hr & _) & _).
  unfold steps_of. rewrite Hd, Hr. apply lookup_seq_suffix.
Qed.

Lemma lookup_last_app {A} (pre xs : list A) :
  (pre ++ xs) !! (length pre + pred (length xs))%nat = last xs.
Proof.
  rewrite lookup_app_r by lia. rewrite last_lookup. f_equal. lia.
Qed.

Lemma find_root_cause_at clk chaos sp :
  find_root_cause (steps_at clk chaos sp) =
  match sp with
  | InDetect | InAnalyse => None
  | _ => Some (root_cause_of chaos)
  end.
Proof.
  pose proof (root_cause_of_truthy chaos) as Ht.
  destruct sp; unfold find_root_cause, steps_at, finished, running;
    cbv [fold_left s_detail]; change (truthy_str None) with false; cbv iota;
    rewrite ?Ht; reflexivity.
Qed.

(** X14. While [run_runbook] sleeps for the [n]-th time (n from 0 to 5,
    the log generator running beside it), the flag is up, [runbook_steps]
    lists the phases begun so far, in order, all done but the last, which is
    running and is the dict bound to [step]; [GET /state] shows those steps
    and, from the third sleep on, the root cause; the status is recovering
    during the fourth sleep and healthy from the fifth on. *)
Theorem runbook_progress_is_visible (clk : nat -> Readings)
  (ticks : nat -> list (nat * string)) (m : Memory) (t0 : Q) (n : nat) :
  incident_started_at (state m) = Some t0 -> (n <= 5)%nat ->
  exists fr m',
    run_blocks n clk ticks m = Sleeping fr m' /\
    at_sleep fr = sleep_number n /\
    runbook_running (state m') = true /\
    map s_step (steps_of m') = take (phases_begun n) RUNBOOK_STEPS /\
    map s_status (steps_of m') =
      replicate (phases_begun n - 1) "done" ++ ["running"] /\
    dicts m' !! step fr = last (steps_of m') /\
    (forall n1 n2,
       r_runbook_steps (fst (get_state n1 n2 m')) = steps_of m' /\
       r_runbook_running (fst (get_state n1 n2 m')) = true /\
       r_root_cause (fst (get_state n1 n2 m')) =
         if (n <=? 1)%nat then None
         else Some (root_cause_of (chaos_mode (state m)))) /\
    (n = 3%nat -> status (state m') = "recovering") /\
    ((4 <= n)%nat -> status (state m') = "healthy").
Proof.
  intros Hs Hn.
  destruct (run_blocks_on_track clk ticks t0 m n Hs Hn) as (fr & m' & E & T).
  exists fr, m'. split; [done|].
  pose proof (on_track_steps _ _ _ _ _ _ T) as Hsteps.
  pose proof (on_track_status _ _ _ _ _ _ T) as Hst.
  destruct T as (Hat & Hrun & _ & _ & (pre & Hd & Hr & Hstep) & _).
  split; [done|]. split; [done|].
  assert (Hlast : dicts m' !! step fr = last (steps_of m')).
  { rewrite Hsteps, Hd, Hstep. apply lookup_last_app. }
  assert (Hroot : find_root_cause (steps_of m') =
                  if (n <=? 1)%nat then None
                  else Some (root_cause_of (chaos_mode (state m)))).
  { rewrite Hsteps, find_root_cause_at.
    do 6 (destruct n as [|n]; [reflexivity|]). lia. }
  rewrite Hsteps in *.
  split; [|split; [|split; [exact Hlast|split; [|split]]]].
  - do 6 (destruct n as [|n]; [reflexivity|]). lia.
  - do 6 (destruct n as [|n]; [reflexivity|]). lia.
  - intros n1 n2. unfold get_state.
    cbn [fst r_runbook_steps r_runbook_running r_root_cause].
    rewrite Hsteps. done.
  - intros ->. exact Hst.
  - intros H4.
    assert (n = 4 \/ n = 5)%nat as [->| ->] by lia; exact Hst.
Qed.

Lemma runbook_progress_is_visible_witness :
  exists fr m',
    run_blocks 2 demo_clock (fun _ => []) (mem demo_unhealthy) = Sleeping fr m' /\
    at_sleep fr = sleep_number 2 /\
    runbook_running (state m') = true /\
    map s_step (steps_of m') = take (phases_begun 2) RUNBOOK_STEPS /\
    map s_status (steps_of m') =
      replicate (phases_begun 2 - 1) "done" ++ ["running"] /\
    dicts m' !! step fr = last (steps_of m') /\
    (forall n1 n2,
       r_runbook_steps (fst (get_state n1 n2 m')) = steps_of m' /\
       r_runbook_running (fst (get_state n1 n2 m')) = true /\
       r_root_cause (fst (get_state n1 n2 m')) =
         if (2 <=? 1)%nat then None
         else Some (root_cause_of (chaos_mode (state (mem demo_unhealthy))))) /\
    (2%nat = 3%nat -> status (state m') = "recovering") /\
    ((4 <= 2)%nat -> status (state m') = "healthy").
Proof.
  apply (runbook_progress_is_visible demo_clock (fun _ => [])
           (mem demo_unhealthy) 1700000001 2).
  - reflexivity.
  - lia.
Defined.






Lemma enter_logs r m :
  logs (state (memory_of (run_runbook_enter r m))) =
  last_n 50 (logs (state m) ++
    [{| timestamp := utcnow_log r; level := "INFO";
        message := "🤖 Runbook triggered automatically" |}]).
Proof.
  open_memory m. unfold run_runbook_enter. run_block. cbv [memory_of state].
  run_block. reflexivity.
Qed.

Lemma resume_logs r fr m :
  logs (state (memory_of (resume r fr m))) =
  match at_sleep fr with
  | InDetect =>
      last_n 50 (logs (state m) ++
        [{| timestamp := utcnow_log r; level := "INFO";
            message := "Runbook [1/5]: 🔍 Health check → UNHEALTHY detected" |}])
  | InAnalyse =>
      last_n 50 (logs (state m) ++
        [{| timestamp := utcnow_log r; level := "INFO";
            message := "Root cause identified: " +:+
                       root_cause_of (chaos_mode (state m)) |}])
  | InRestartA =>
      last_n 50 (logs (state m) ++
        [{| timestamp := utcnow_log r; level := "INFO";
            message := "Restarting payment-service..." |}])
  | InRestartB =>
      last_n 50 (logs (state m) ++
        [{| timestamp := utcnow_log r; level := "INFO";
            message := "✅ Service restarted successfully — health check PASSED" |}])
  | InVerify =>
      last_n 50 (logs (state m) ++
        [{| timestamp := utcnow_log r; level := "INFO";
            message := "Recovery verified — payment processing resumed" |}])
  | InNotify =>
      match incident_resolved_at (state m), incident_started_at (state m) with
      | Some resolved, Some started =>
          last_n 50 (logs (state m) ++
            [{| timestamp := utcnow_log r; level := "INFO";
                message := report (py_round (resolved - started))
                             (chaos_mode (state m)) |}])
      | _, _ => logs (state m)
      end
  end.
Proof.
  destruct fr as [sp a]. open_memory m. unfold resume. cbv [at_sleep step].
  destruct sp; [..|destruct ira, isa]; run_block; cbv [memory_of state];
    run_block; reflexivity.
Qed.

Lemma last_n_app_snoc {A} (n : nat) (xs ys : list A) (y : A) :
  (0 < n)%nat ->
  last_n n (last_n n (xs ++ ys) ++ [y]) = last_n n (xs ++ ys ++ [y]).
Proof. intros H. rewrite last_n_snoc by done. by rewrite <- app_assoc. Qed.

(** The log after [n] wake-ups, when the log generator stays silent. *)
Lemma run_blocks_logs clk t0 m n :
  incident_started_at (state m) = Some t0 -> (n <= 5)%nat ->
  logs (state (memory_of (run_blocks n clk (fun _ => []) m))) =
  last_n 50 (logs (state m) ++ take (S n) (trail clk (chaos_mode (state m)) t0)).
Proof.
  intros Hs. induction n as [|n IH]; intros Hn.
  - cbn [run_blocks]. rewrite enter_logs. reflexivity.
  - destruct (run_blocks_on_track clk (fun _ => []) t0 m n Hs ltac:(lia))
      as (fr & m' & E & T).
    specialize (IH ltac:(lia)). rewrite E in IH. cbn [memory_of] in IH.
    cbn [run_blocks]. rewrite E. cbn [and_then background fold_left].
    rewrite resume_logs.
    destruct T as (Hat & _ & _ & Hch & _). rewrite Hat, Hch, IH.
    assert (n = 0 \/ n = 1 \/ n = 2 \/ n = 3 \/ n = 4)%nat
      as [->|[->|[->|[->| ->]]]] by lia;
      cbn [sleep_number];
      match goal with |- _ = last_n 50 (_ ++ take (S ?k) ?l) =>
        erewrite (take_S_r l k) by reflexivity
      end; apply last_n_app_snoc; lia.
Qed.

(** X16. A call of [run_runbook] during which the log generator does not
    fire returns and has appended exactly seven entries, all INFO, in program
    order: triggered, detection, root cause, restarting, restarted, verified,
    incident report; they follow the old entries (the result trimmed to the
    last fifty, so unchanged when the buffer held at most 43). *)
Theorem runbook_audit_trail (clk : nat -> Readings) (m : Memory) (t0 : Q) :
  incident_started_at (state m) = Some t0 ->
  exists m',
    run_runbook clk (fun _ => []) m = Returned m' /\
    logs (state m') =
      last_n 50 (logs (state m) ++ trail clk (chaos_mode (state m)) t0) /\
    ((length (logs (state m)) <= 43)%nat ->
     logs (state m') = logs (state m) ++ trail clk (chaos_mode (state m)) t0) /\
    Forall (fun e => level e = "INFO") (trail clk (chaos_mode (state m)) t0) /\
    length (trail clk (chaos_mode (state m)) t0) = 7%nat.
Proof.
  intros Hs.
  destruct (run_blocks_on_track clk (fun _ => []) t0 m 5 Hs ltac:(lia))
    as (fr & m5 & E & T).
  pose proof (run_blocks_logs clk t0 m 5 Hs ltac:(lia)) as Hl.
  rewrite E in Hl. cbn [memory_of] in Hl.
  destruct (resume_notify clk t0 _ fr m5 T) as (m' & Hrun & Hdone).
  exists m'.
  assert (Hrr : run_runbook clk (fun _ => []) m = Returned m').
  { rewrite <- run_blocks_all.
    change (run_blocks 6 clk (fun _ => []) m)
      with (and_then (clk 6%nat) [] (run_blocks 5 clk (fun _ => []) m)).
    rewrite E. exact Hrun. }
  split; [exact Hrr|].
  assert (Hlogs : logs (state m') =
    last_n 50 (logs (state m) ++ trail clk (chaos_mode (state m)) t0)).
  { pose proof (resume_logs (clk 6%nat) fr m5) as H6.
    rewrite Hrun in H6. cbn [memory_of] in H6.
    destruct T as (Hat & _ & Hst & Hch & _ & _ & Hres).
    rewrite Hat, Hst, Hres, Hch, Hl in H6. cbn [sleep_number] in H6.
    rewrite H6. rewrite last_n_app_snoc by lia. reflexivity. }
  split; [exact Hlogs|]. split; [|split; [repeat constructor|reflexivity]].
  intros Hlen. rewrite Hlogs. apply last_n_all. rewrite length_app.
  cbn [trail length]. lia.
Qed.

Lemma runbook_audit_trail_witness :
  exists m',
    run_runbook demo_clock (fun _ => []) (mem demo_unhealthy) = Returned m' /\
    logs (state m') =
      last_n 50 (logs (state (mem demo_unhealthy)) ++
                 trail demo_clock (chaos_mode (state (mem demo_unhealthy)))
                   1700000001) /\
    ((length (logs (state (mem demo_unhealthy))) <= 43)%nat ->
     logs (state m') =
       logs (state (mem demo_unhealthy)) ++
       trail demo_clock (chaos_mode (state (mem demo_unhealthy))) 1700000001) /\
    Forall (fun e => level e = "INFO")
      (trail demo_clock (chaos_mode (state (mem demo_unhealthy))) 1700000001) /\
    length (trail demo_clock (chaos_mode (state (mem demo_unhealthy)))
              1700000001) = 7%nat.
Proof.
  apply (runbook_audit_trail demo_clock (mem demo_unhealthy) 1700000001).
  reflexivity.
Defined.
